(** * elb_application_lb_facts: gathering facts about Application Load Balancers

    A shallow embedding of [src/cloud/amazon/elb_application_lb_facts.py].

    The module is dynamically typed Python that reshapes JSON-like provider
    responses, so values are modelled as an untyped universe [pyval]; the
    Python exceptions the code can meet are the constructors of [exn]; and a
    function of the module is a term of the free monad [prog], whose only
    effect is a call to the provider (boto3).  A program is given meaning by
    [run], which lets a provider (any state machine answering requests) serve
    the calls and records the requests issued with the responses received. *)

From Stdlib Require Import String Ascii List ZArith Bool Lia.
Import ListNotations.
Local Open Scope string_scope.
Local Open Scope list_scope.

Set Implicit Arguments.
Set Warnings "-register-all".

(* ================================================================= *)
(** ** Python values *)

(** JSON-like Python values.  A dict is kept as an association list in
    insertion order: every dict the module builds or receives has string
    keys, and iterating a dict yields its keys. *)
Inductive pyval : Type :=
| PNone
| PBool (b : bool)
| PInt (z : Z)
| PStr (s : string)
| PList (items : list pyval)
| PDict (entries : list (string * pyval)).

(** The exceptions that can travel through the module.  [FailJson] is the
    exit taken by [module.fail_json]; [NameError] is what the use of a name
    that is bound nowhere raises. *)
Inductive exn : Type :=
| KeyError
| IndexError
| TypeError
| UnboundLocalError
| NameError
| BotoServerError (error_code error_message : string)
| ClientError (message : string)
| OtherError (description : string)
| FailJson (msg : string).

(** [bool(v)]: Python truthiness. *)
Definition truthy (v : pyval) : bool :=
  match v with
  | PNone => false
  | PBool b => b
  | PInt z => negb (Z.eqb z 0)
  | PStr s => negb (String.eqb s "")
  | PList l => match l with [] => false | _ :: _ => true end
  | PDict d => match d with [] => false | _ :: _ => true end
  end.

(** [d.get(k)] on the association list of a dict. *)
Fixpoint dict_get (k : string) (d : list (string * pyval)) : option pyval :=
  match d with
  | [] => None
  | (k', v) :: d' => if String.eqb k k' then Some v else dict_get k d'
  end.

(** [d[k] = v]: overwrite the entry of [k], or add one at the end. *)
Fixpoint dict_set (k : string) (v : pyval) (d : list (string * pyval))
  : list (string * pyval) :=
  match d with
  | [] => [(k, v)]
  | (k', v') :: d' =>
      if String.eqb k k' then (k, v) :: d' else (k', v') :: dict_set k v d'
  end.

(** The keys of a dict, in iteration order. *)
Definition dict_keys (d : list (string * pyval)) : list string := map fst d.

(** Position [i] of a sequence of length [n], Python style: a negative
    index counts from the end. *)
Definition seq_index (n : nat) (i : Z) : option nat :=
  let j := if (i <? 0)%Z then (i + Z.of_nat n)%Z else i in
  if ((0 <=? j)%Z && (j <? Z.of_nat n)%Z)%bool then Some (Z.to_nat j) else None.

(** The characters of a string, each a one-character string. *)
Fixpoint str_chars (s : string) : list pyval :=
  match s with
  | EmptyString => []
  | String c s' => PStr (String c EmptyString) :: str_chars s'
  end.

(* ================================================================= *)
(** ** Provider calls and programs *)

(** The calls the module makes through boto3. *)
Inductive request : Type :=
| Boto3Conn (resource : string) (region : pyval)
    (* boto3_conn(module, conn_type='client', resource=..., region=...) *)
| DescribeLoadBalancers
    (* elbv2.describe_load_balancers() *)
| DescribeListenersOf (LoadBalancerArn : pyval)
    (* elbv2.describe_listeners(LoadBalancerArn=...) *)
| DescribeListeners (ListenerArns : list pyval).
    (* elbv2.describe_listeners(ListenerArns=[...]) *)

(** A call either returns a value or raises. *)
Definition response : Type := (pyval + exn)%type.

(** Programs: return, raise, or call the provider and go on with its
    response. *)
Inductive prog (A : Type) : Type :=
| Ret (a : A)
| Throw (e : exn)
| Call (r : request) (k : response -> prog A).

Arguments Throw {A} e.
Arguments Call {A} r k.

(** [try: body / except <handled>: handler / else: orelse].  An exception
    of [body] that [handler] names is replaced by the handler's code; any
    other goes on; [orelse] runs after a body that did not raise, outside
    the protection of the handlers. *)
Fixpoint try_except_else {A B : Type} (body : prog A)
  (handler : exn -> option (prog B)) (orelse : A -> prog B) : prog B :=
  match body with
  | Ret a => orelse a
  | Throw e => match handler e with Some h => h | None => Throw e end
  | Call r k => Call r (fun resp => try_except_else (k resp) handler orelse)
  end.

(** Sequencing. *)
Fixpoint bind {A B : Type} (m : prog A) (f : A -> prog B) : prog B :=
  match m with
  | Ret a => f a
  | Throw e => Throw e
  | Call r k => Call r (fun resp => bind (k resp) f)
  end.

Notation "x <- m ;; k" := (bind m (fun x => k))
  (at level 61, m at next level, right associativity).
Notation "m ;;; k" := (bind m (fun _ => k))
  (at level 61, right associativity).

(** [for x in xs: acc = body(acc, x)], with the loop's variables as [acc]. *)
Fixpoint for_each {S : Type} (xs : list pyval) (body : S -> pyval -> prog S)
  (acc : S) : prog S :=
  match xs with
  | [] => Ret acc
  | x :: xs' => acc' <- body acc x ;; for_each xs' body acc'
  end.

(** [list(map(f, xs))]. *)
Fixpoint py_map (f : pyval -> prog pyval) (xs : list pyval)
  : prog (list pyval) :=
  match xs with
  | [] => Ret []
  | x :: xs' => y <- f x ;; ys <- py_map f xs' ;; Ret (y :: ys)
  end.

(** [v[key]]. *)
Definition getitem (v key : pyval) : prog pyval :=
  match v, key with
  | PDict d, PStr k =>
      match dict_get k d with Some x => Ret x | None => Throw KeyError end
  | PDict _, (PNone | PBool _ | PInt _) => Throw KeyError
  | PDict _, (PList _ | PDict _) => Throw TypeError
  | PList l, PInt i =>
      match seq_index (length l) i with
      | Some n => match nth_error l n with
                  | Some x => Ret x
                  | None => Throw IndexError
                  end
      | None => Throw IndexError
      end
  | PList l, PBool b =>
      match nth_error l (if b then 1 else 0)%nat with
      | Some x => Ret x
      | None => Throw IndexError
      end
  | PStr s, PInt i =>
      match seq_index (String.length s) i with
      | Some n => match nth_error (str_chars s) n with
                  | Some x => Ret x
                  | None => Throw IndexError
                  end
      | None => Throw IndexError
      end
  | PStr s, PBool b =>
      match nth_error (str_chars s) (if b then 1 else 0)%nat with
      | Some x => Ret x
      | None => Throw IndexError
      end
  | _, _ => Throw TypeError
  end.

(** [v['k']] and [v[i]], as the module writes them. *)
Definition item (v : pyval) (k : string) : prog pyval := getitem v (PStr k).
Definition index (v : pyval) (i : Z) : prog pyval := getitem v (PInt i).

(** [iter(v)]: the elements a [for] loop or [map] sees. *)
Definition py_iter (v : pyval) : prog (list pyval) :=
  match v with
  | PList l => Ret l
  | PDict d => Ret (map PStr (dict_keys d))
  | PStr s => Ret (str_chars s)
  | PNone | PBool _ | PInt _ => Throw TypeError
  end.

(** [x in names], for [names] the module's list of name strings: only a
    string with the same characters as an entry is a member. *)
Definition py_in (x : pyval) (names : list string) : bool :=
  match x with
  | PStr s => existsb (String.eqb s) names
  | _ => false
  end.

(** Modelled from the spec: [module.fail_json] of AnsibleModule, which is not
    part of the source file.  The failure is reported with its message and
    the operation aborts: nothing after it runs. *)
Definition fail_json {A : Type} (msg : string) : prog A := Throw (FailJson msg).

(** A provider call; what it raises is raised here. *)
Definition call (r : request) : prog pyval :=
  Call r (fun resp => match resp with inl v => Ret v | inr e => Throw e end).

(** [except BotoServerError as err:
       self.module.fail_json(msg = "%s: %s" % (err.error_code, err.error_message))] *)
Definition except_BotoServerError {A : Type} (e : exn) : option (prog A) :=
  match e with
  | BotoServerError error_code error_message =>
      Some (fail_json (error_code ++ ": " ++ error_message))
  | _ => None
  end.

(** The guarded provider call the module repeats:
    [try: v = <call> / except BotoServerError as err: fail_json(...)]. *)
Definition guarded_call (r : request) : prog pyval :=
  try_except_else (call r) except_BotoServerError (fun v => Ret v).

(** [except ClientError as e: module.fail_json(msg=e.message)] (line 107).
    The name [ClientError] occurs on that line only: the module imports
    boto3, [BotoServerError] and q, and nothing binds [ClientError].  Python
    evaluates the class of an [except] clause when an exception reaches it,
    so for every exception that leaves the [try] body, the exit of
    [fail_json] included, the clause itself raises [NameError], and the
    handler's [fail_json] never runs. *)
Definition except_ClientError {A : Type} (e : exn) : option (prog A) :=
  Some (Throw NameError).

(* ================================================================= *)
(** ** The module: class ElbInformation *)

(** [_get_zone_info(self, zones)] (lines 111-119). *)
Definition _get_zone_info (zones : pyval) : prog pyval :=
  zs <- py_iter zones ;;
  zone_list <-
    for_each zs (fun zone_list zone =>
      subnetid <- item zone "SubnetId" ;;
      zonename <- item zone "ZoneName" ;;
      let zone_dict := PDict [("subnetid", subnetid); ("zonename", zonename)] in
      Ret (zone_list ++ [zone_dict])) [] ;;
  Ret (PList zone_list).

(** The first loop of [_get_listeners] (lines 129-130):
    [for listener in listeners['Listeners']:
         listener_arns.append(listener['ListenerArn'])] *)
Definition collect_listener_arns (listeners : pyval) : prog (list pyval) :=
  ls <- item listeners "Listeners" ;;
  xs <- py_iter ls ;;
  for_each xs (fun listener_arns listener =>
    a <- item listener "ListenerArn" ;;
    Ret (listener_arns ++ [a])) [].

(** The body of the inner loop of [_get_listeners] (lines 138-153): the dict
    literal assigned to [listener_dict], then the [try/except/else] that may
    add ['certificate_arn'] to it. *)
Definition build_listener_dict (listener : pyval) : prog pyval :=
  listener_arn <- item listener "ListenerArn" ;;
  port <- item listener "Port" ;;
  protocol <- item listener "Protocol" ;;
  default_actions <- item listener "DefaultActions" ;;
  let listener_dict :=
    [("listener_arn", listener_arn); ("port", port);
     ("protocol", protocol); ("default_actions", default_actions)] in
  try_except_else
    (certificates <- item listener "Certificates" ;;
     first <- index certificates 0 ;;
     item first "CertificateArn")
    (fun e => match e with
              | IndexError | KeyError => Some (Ret (PDict listener_dict))
              | _ => None
              end)
    (fun certificate_arn =>
       if truthy certificate_arn
       then Ret (PDict (dict_set "certificate_arn" certificate_arn listener_dict))
       else Ret (PDict listener_dict)).

(** One turn of the outer loop of [_get_listeners], [for arn in listener_arns],
    after its call (lines 137-154): the inner loop over the listeners of the detail response,
    then [listener_list.append(listener_dict)].  The loop's variables are
    [listener_dict], which is unbound ([None]) until the inner loop has
    assigned it once and is never reset between turns, and [listener_list].
    Every assignment of [listener_dict] is a new dict and nothing changes a
    dict after it is appended, so an appended dict is kept by value. *)
Definition record_listeners (vars : option pyval * list pyval)
  (listener_data : pyval) : prog (option pyval * list pyval) :=
  let '(listener_dict, listener_list) := vars in
  ls <- item listener_data "Listeners" ;;
  xs <- py_iter ls ;;
  listener_dict <-
    for_each xs (fun _ listener =>
      d <- build_listener_dict listener ;; Ret (Some d)) listener_dict ;;
  match listener_dict with
  | Some d => Ret (listener_dict, listener_list ++ [d])
  | None => Throw UnboundLocalError
  end.

(** One turn of the outer loop of [_get_listeners] (lines 132-154): the
    detail call for [arn], then the above. *)
Definition fetch_listener (vars : option pyval * list pyval) (arn : pyval)
  : prog (option pyval * list pyval) :=
  listener_data <- guarded_call (DescribeListeners [arn]) ;;
  record_listeners vars listener_data.

(** The second loop of [_get_listeners] and its [return listener_list]
    (lines 132-155). *)
Definition fetch_listeners (listener_arns : list pyval) : prog pyval :=
  vars <- for_each listener_arns fetch_listener (None, []) ;;
  Ret (PList (snd vars)).

(** [_get_listeners(self, loadbalancerarns)] (lines 121-155). *)
Definition _get_listeners (loadbalancerarns : pyval) : prog pyval :=
  listeners <- guarded_call (DescribeListenersOf loadbalancerarns) ;;
  listener_arns <- collect_listener_arns listeners ;;
  fetch_listeners listener_arns.

(** [_get_elb_info(self, elb)] (lines 158-169): the entries of the dict
    literal are evaluated in the order they are written. *)
Definition _get_elb_info (elb : pyval) : prog pyval :=
  load_balancer_arn <- item elb "LoadBalancerArn" ;;
  zones <- (azs <- item elb "AvailabilityZones" ;; _get_zone_info azs) ;;
  name <- item elb "LoadBalancerName" ;;
  dns_name <- item elb "DNSName" ;;
  security_groups <- item elb "SecurityGroups" ;;
  state <- (st <- item elb "State" ;; item st "Code") ;;
  listeners <- (arn <- item elb "LoadBalancerArn" ;; _get_listeners arn) ;;
  Ret (PDict [("load_balancer_arn", load_balancer_arn);
              ("zones", zones);
              ("name", name);
              ("dns_name", dns_name);
              ("security_groups", security_groups);
              ("state", state);
              ("listeners", listeners)]).

(** The name filter of [list_elbs] (lines 181-183):
    [for existing_lb in all_elbs['LoadBalancers']:
         if existing_lb['LoadBalancerName'] in self.names:
             elb_array.append(existing_lb)] *)
Definition select_named (names : list string) (all_elbs : pyval)
  : prog (list pyval) :=
  lbs <- item all_elbs "LoadBalancers" ;;
  xs <- py_iter lbs ;;
  for_each xs (fun elb_array existing_lb =>
    n <- item existing_lb "LoadBalancerName" ;;
    if py_in n names then Ret (elb_array ++ [existing_lb]) else Ret elb_array) [].

(** [list_elbs(self)] (lines 171-187), with [self.names] as [names].  Without a name filter
    [elb_array] is the response itself ([elb_array = all_elbs]), and [map]
    iterates over whatever that value is. *)
Definition list_elbs (names : list string) : prog pyval :=
  all_elbs <- guarded_call DescribeLoadBalancers ;;
  elb_array <-
    (if truthy all_elbs then
       match names with
       | _ :: _ => arr <- select_named names all_elbs ;; Ret (PList arr)
       | [] => Ret all_elbs
       end
     else Ret (PList [])) ;;
  xs <- py_iter elb_array ;;
  infos <- py_map _get_elb_info xs ;;
  Ret (PList infos).

(* ================================================================= *)
(** ** The module: main *)

(** What [main] gets from the surrounding framework (AnsibleModule and
    ansible.module_utils.ec2, neither part of the source file): the flag
    [HAS_BOTO], the region [get_aws_connection_info] resolves (for boto and,
    with [boto3=True], for boto3), and the [names] parameter. *)
Record module_env : Type := {
  HAS_BOTO : bool;
  get_aws_connection_info : bool -> pyval;
  names : list string
}.

(** [_get_elb_connection(self, module)] (lines 100-109). *)
Definition _get_elb_connection (env : module_env) : prog (pyval * pyval) :=
  try_except_else
    (let region := get_aws_connection_info env true in
     (if truthy region then Ret tt
      else fail_json "Region must be specified as a parameter, in EC2_REGION or AWS_REGION environment variables or in boto configuration file") ;;;
     ec2 <- call (Boto3Conn "ec2" region) ;;
     elbv2 <- call (Boto3Conn "elbv2" region) ;;
     Ret (ec2, elbv2))
    except_ClientError
    (fun clients => Ret clients).

(** [ElbInformation.__init__] (lines 88-98): it keeps its arguments and
    opens the two clients. *)
Definition ElbInformation (env : module_env) : prog (pyval * pyval) :=
  _get_elb_connection env.

(** [main()] (lines 190-216).  [module.exit_json] ends the program with the
    result dict [dict(changed=False, elbs=...)], which is the value returned
    here. *)
Definition main (env : module_env) : prog pyval :=
  (if HAS_BOTO env then Ret tt
   else fail_json "boto required for this module") ;;;
  let region := get_aws_connection_info env false in
  (if truthy region then Ret tt else fail_json "region must be specified") ;;;
  elb_information <- ElbInformation env ;;
  elbs <- list_elbs (names env) ;;
  Ret (PDict [("changed", PBool false); ("elbs", elbs)]).

(* ================================================================= *)
(** ** Running a program against a provider *)

(** A provider: any state machine that answers requests. *)
Record provider : Type := {
  world : Type;
  serve : world -> request -> response * world
}.

(** How a run ends. *)
Inductive outcome (A : Type) : Type :=
| Returned (a : A)
| Raised (e : exn).

Arguments Raised {A} e.

(** The calls of a run, each with the response it got. *)
Definition trace : Type := list (request * response).

(** [run P p w]: how [p] ends when [P] serves its calls from state [w], the
    calls made, and the provider's state afterwards. *)
Fixpoint run (P : provider) {A : Type} (p : prog A) (w : world P)
  : outcome A * trace * world P :=
  match p with
  | Ret a => (Returned a, [], w)
  | Throw e => (Raised e, [], w)
  | Call r k =>
      let (resp, w1) := serve P w r in
      let '(o, t, w2) := run P (k resp) w1 in
      (o, (r, resp) :: t, w2)
  end.

Definition outcome_of {A W : Type} (r : outcome A * trace * W) : outcome A :=
  fst (fst r).
Definition calls_of {A W : Type} (r : outcome A * trace * W) : trace :=
  snd (fst r).
Definition world_of {A W : Type} (r : outcome A * trace * W) : W := snd r.

(** The requests of a trace, and the responses. *)
Definition requests (t : trace) : list request := map fst t.
Definition responses (t : trace) : list response := map snd t.

(* ================================================================= *)
(** ** An example provider *)

(** The account of the module's EXAMPLES: two load balancers,
    frontend-prod-elb with an HTTPS and an HTTP listener and
    backend-prod-elb with none. *)
Module Example.

Definition https_listener : pyval :=
  PDict [("ListenerArn", PStr "arn:listener/front/443");
         ("LoadBalancerArn", PStr "arn:lb/front");
         ("Port", PInt 443);
         ("Protocol", PStr "HTTPS");
         ("Certificates", PList [PDict [("CertificateArn", PStr "arn:cert/one")];
                                 PDict [("CertificateArn", PStr "arn:cert/two")]]);
         ("SslPolicy", PStr "ELBSecurityPolicy-2015-05");
         ("DefaultActions", PList [PDict [("Type", PStr "forward");
                                          ("TargetGroupArn", PStr "arn:tg/web")]])].

Definition http_listener : pyval :=
  PDict [("ListenerArn", PStr "arn:listener/front/80");
         ("LoadBalancerArn", PStr "arn:lb/front");
         ("Port", PInt 80);
         ("Protocol", PStr "HTTP");
         ("DefaultActions", PList [PDict [("Type", PStr "forward");
                                          ("TargetGroupArn", PStr "arn:tg/web")]])].

(** What the enumeration reports for the HTTPS listener differs from its
    detail (port 8443): only the ARN of an enumerated listener is used. *)
Definition https_listener_listed : pyval :=
  PDict [("ListenerArn", PStr "arn:listener/front/443");
         ("Port", PInt 8443);
         ("Protocol", PStr "HTTP");
         ("DefaultActions", PList [])].

Definition load_balancer (arn name dns : string) : pyval :=
  PDict [("LoadBalancerArn", PStr arn);
         ("DNSName", PStr dns);
         ("LoadBalancerName", PStr name);
         ("Scheme", PStr "internet-facing");
         ("State", PDict [("Code", PStr "active")]);
         ("Type", PStr "application");
         ("AvailabilityZones",
           PList [PDict [("ZoneName", PStr "us-east-1a"); ("SubnetId", PStr "subnet-1")];
                  PDict [("ZoneName", PStr "us-east-1b"); ("SubnetId", PStr "subnet-2")]]);
         ("SecurityGroups", PList [PStr "sg-1"])].

Definition frontend : pyval :=
  load_balancer "arn:lb/front" "frontend-prod-elb" "front.example.com".
Definition backend : pyval :=
  load_balancer "arn:lb/back" "backend-prod-elb" "back.example.com".

Definition metadata : string * pyval :=
  ("ResponseMetadata", PDict [("HTTPStatusCode", PInt 200)]).

Definition all_elbs : pyval :=
  PDict [("LoadBalancers", PList [frontend; backend]); metadata].

Definition pyval_is_str (v : pyval) (s : string) : bool :=
  match v with PStr s' => String.eqb s s' | _ => false end.

(** The provider answers from fixed data and counts the calls it served. *)
Definition answer (r : request) : response :=
  match r with
  | Boto3Conn _ _ => inl PNone
  | DescribeLoadBalancers => inl all_elbs
  | DescribeListenersOf arn =>
      if pyval_is_str arn "arn:lb/front"
      then inl (PDict [("Listeners", PList [https_listener_listed; http_listener]);
                       metadata])
      else inl (PDict [("Listeners", PList []); metadata])
  | DescribeListeners [arn] =>
      if pyval_is_str arn "arn:listener/front/443"
      then inl (PDict [("Listeners", PList [https_listener]); metadata])
      else if pyval_is_str arn "arn:listener/front/80"
      then inl (PDict [("Listeners", PList [http_listener]); metadata])
      else inr (BotoServerError "ListenerNotFound" "One or more listeners not found")
  | DescribeListeners _ =>
      inr (BotoServerError "ValidationError" "exactly one listener ARN expected")
  end.

Definition aws : provider :=
  {| world := nat; serve := fun n r => (answer r, S n) |}.

(** The same account when the caller is not authorised to list. *)
Definition denied : provider :=
  {| world := nat;
     serve := fun n r =>
       (match r with
        | Boto3Conn _ _ => inl PNone
        | _ => inr (BotoServerError "AccessDenied" "not authorized to perform this operation")
        end, S n) |}.

(** A provider whose detail responses do not hold one listener each: two
    for the listener arn:listener/a, none for any other.  It enumerates a
    then b, and for the load balancer arn:lb/rev b then a. *)
Definition https_record : pyval :=
  PDict [("listener_arn", PStr "arn:listener/front/443");
         ("port", PInt 443);
         ("protocol", PStr "HTTPS");
         ("default_actions",
           PList [PDict [("Type", PStr "forward");
                         ("TargetGroupArn", PStr "arn:tg/web")]]);
         ("certificate_arn", PStr "arn:cert/one")].

Definition listed (arn : string) : pyval := PDict [("ListenerArn", PStr arn)].

Definition enumeration_a_b : pyval :=
  PDict [("Listeners", PList [listed "arn:listener/a"; listed "arn:listener/b"])].
Definition enumeration_b_a : pyval :=
  PDict [("Listeners", PList [listed "arn:listener/b"; listed "arn:listener/a"])].

Definition detail_of_a : pyval :=
  PDict [("Listeners", PList [http_listener; https_listener])].
Definition detail_of_b : pyval := PDict [("Listeners", PList [])].

Definition odd_answer (r : request) : response :=
  match r with
  | DescribeListenersOf arn =>
      if pyval_is_str arn "arn:lb/rev" then inl enumeration_b_a
      else inl enumeration_a_b
  | DescribeListeners [arn] =>
      if pyval_is_str arn "arn:listener/a" then inl detail_of_a
      else inl detail_of_b
  | _ => answer r
  end.

Definition odd : provider :=
  {| world := nat; serve := fun n r => (odd_answer r, S n) |}.

(** The same account for a boto3 client that is not authorised to list:
    boto3 reports the failure as a botocore [ClientError]. *)
Definition denied_boto3 : provider :=
  {| world := nat;
     serve := fun n r =>
       (match r with
        | Boto3Conn _ _ => inl PNone
        | _ => inr (ClientError "An error occurred (AccessDenied) when calling the DescribeLoadBalancers operation: not authorized")
        end, S n) |}.

(** A region that only the boto lookup finds (say, one set in the boto
    configuration file alone). *)
Definition env_boto_region_only (names : list string) : module_env :=
  {| HAS_BOTO := true;
     get_aws_connection_info :=
       fun boto3 => if boto3 then PNone else PStr "us-east-1";
     names := names |}.

Definition env (names : list string) : module_env :=
  {| HAS_BOTO := true;
     get_aws_connection_info := fun _ => PStr "us-east-1";
     names := names |}.

End Example.


(* ================================================================= *)
(** ** Shapes of values *)

(** The value of key [k] of a dict, [None] for a missing key or for a value
    that is not a dict. *)
Definition field (k : string) (v : pyval) : option pyval :=
  match v with
  | PDict d => dict_get k d
  | _ => None
  end.

Definition has_key (k : string) (v : pyval) : bool :=
  match field k v with Some _ => true | None => false end.

(** A program that makes no call. *)
Definition pure {A : Type} (p : prog A) : Prop :=
  match p with
  | Call _ _ => False
  | _ => True
  end.

(** How a program that makes no call ends. *)
Definition pure_outcome {A : Type} (p : prog A) : outcome A :=
  match p with
  | Ret a => Returned a
  | Throw e => Raised e
  | Call _ _ => Raised TypeError
  end.

(** [l1] is an initial part of [l2]. *)
Definition prefix {A : Type} (l1 l2 : list A) : Prop :=
  exists rest, l2 = l1 ++ rest.

(** The detail requests for a list of ARNs. *)
Definition detail_requests (arns : list pyval) : list request :=
  map (fun a => DescribeListeners [a]) arns.

(** *** Provider responses that have the fields the module reads *)

Definition zone_ok (zone : pyval) : bool :=
  has_key "SubnetId" zone && has_key "ZoneName" zone.

Definition load_balancer_ok (elb : pyval) : bool :=
  has_key "LoadBalancerArn" elb
  && match field "AvailabilityZones" elb with
     | Some (PList zones) => forallb zone_ok zones
     | _ => false
     end
  && match field "LoadBalancerName" elb with
     | Some (PStr _) => true
     | _ => false
     end
  && has_key "DNSName" elb
  && has_key "SecurityGroups" elb
  && match field "State" elb with
     | Some state => has_key "Code" state
     | None => false
     end.

(** A listener detail: the four copied fields, and certificates that are
    absent, an empty list, or a list that starts with a dict. *)
Definition listener_ok (listener : pyval) : bool :=
  has_key "ListenerArn" listener
  && has_key "Port" listener
  && has_key "Protocol" listener
  && has_key "DefaultActions" listener
  && match field "Certificates" listener with
     | None => true
     | Some (PList []) => true
     | Some (PList (PDict _ :: _)) => true
     | Some _ => false
     end.

(** The listeners of a [describe_listeners] response. *)
Definition listeners_of (listener_data : pyval) : list pyval :=
  match field "Listeners" listener_data with
  | Some (PList ls) => ls
  | _ => []
  end.

(** The ARNs an enumeration response lists. *)
Definition listed_arns (listeners : pyval) : list pyval :=
  flat_map (fun l => match field "ListenerArn" l with
                     | Some a => [a]
                     | None => []
                     end) (listeners_of listeners).

Definition enumeration_ok (listeners : pyval) : bool :=
  match field "Listeners" listeners with
  | Some (PList ls) => forallb (has_key "ListenerArn") ls
  | _ => false
  end.

(** A detail response with at least one listener, all of them well formed. *)
Definition detail_ok (listener_data : pyval) : bool :=
  match field "Listeners" listener_data with
  | Some (PList (l :: ls)) => forallb listener_ok (l :: ls)
  | _ => false
  end.

(** *** The records of a listener fetch, in the spec's words *)

(** The value of a field, [None] when it is missing. *)
Definition field_value (k : string) (v : pyval) : pyval :=
  match field k v with
  | Some x => x
  | None => PNone
  end.

(** The certificate of a listener: the certificate ARN of the first entry
    of its certificate list, when there is one and it is not empty. *)
Definition certificate_of (listener : pyval) : option pyval :=
  match field "Certificates" listener with
  | Some (PList (first :: _)) =>
      match field "CertificateArn" first with
      | Some certificate_arn =>
          if truthy certificate_arn then Some certificate_arn else None
      | None => None
      end
  | _ => None
  end.

(** The record of a listener: its ARN, port, protocol and default actions,
    and its certificate when it has one. *)
Definition listener_record_of (listener : pyval) : pyval :=
  PDict ([("listener_arn", field_value "ListenerArn" listener);
          ("port", field_value "Port" listener);
          ("protocol", field_value "Protocol" listener);
          ("default_actions", field_value "DefaultActions" listener)]
         ++ match certificate_of listener with
            | Some certificate_arn => [("certificate_arn", certificate_arn)]
            | None => []
            end).

(** The last listener of a detail response, when it holds any. *)
Definition last_listener (listener_data : pyval) : option pyval :=
  last (map Some (listeners_of listener_data)) None.

(** A detail response whose listeners, however many, are well formed. *)
Definition detail_listeners_ok (listener_data : pyval) : bool :=
  match field "Listeners" listener_data with
  | Some (PList ls) => forallb listener_ok ls
  | _ => false
  end.

(** The records a fetch appends for a sequence of detail responses, one per
    response: the record of the last listener of the response, or, for a
    response without listeners, the record [left_over] by the response
    before it.  There is no list when there is nothing left over to append. *)
Fixpoint records_of_details (left_over : option pyval) (details : list pyval)
  : option (list pyval) :=
  match details with
  | [] => Some []
  | listener_data :: rest =>
      match match last_listener listener_data with
            | Some listener => Some (listener_record_of listener)
            | None => left_over
            end with
      | Some d => option_map (cons d) (records_of_details (Some d) rest)
      | None => None
      end
  end.

(** A provider that, in every state, enumerates the listeners of any load
    balancer and then gives the detail of each listener it enumerated. *)
Definition serves_listeners (P : provider) : Prop :=
  forall (w : world P) (lb_arn : pyval),
    exists listeners,
      fst (serve P w (DescribeListenersOf lb_arn)) = inl listeners /\
      enumeration_ok listeners = true /\
      forall (a : pyval) (w' : world P),
        In a (listed_arns listeners) ->
        exists listener_data,
          fst (serve P w' (DescribeListeners [a])) = inl listener_data /\
          detail_ok listener_data = true.

(** *** The name filter, in the spec's words *)

(** The name of a load balancer of the provider's response. *)
Definition name_of (elb : pyval) : option string :=
  match field "LoadBalancerName" elb with
  | Some (PStr n) => Some n
  | _ => None
  end.

(** A load balancer is retained when its name is a member of the filter
    set: the same string, character for character. *)
Definition in_filter (names : list string) (elb : pyval) : bool :=
  match name_of elb with
  | Some n => if in_dec string_dec n names then true else false
  | None => false
  end.

(** [info] is the record of the load balancer [elb]. *)
Definition describes (elb info : pyval) : Prop :=
  field "name" info = field "LoadBalancerName" elb /\
  field "load_balancer_arn" info = field "LoadBalancerArn" elb /\
  field "dns_name" info = field "DNSName" elb /\
  field "security_groups" info = field "SecurityGroups" elb.

(** *** The records of the output *)

Definition zone_record (v : pyval) : Prop :=
  exists subnetid zonename,
    v = PDict [("subnetid", subnetid); ("zonename", zonename)].

Definition listener_record (v : pyval) : Prop :=
  exists listener_arn port protocol default_actions,
    v = PDict [("listener_arn", listener_arn); ("port", port);
               ("protocol", protocol); ("default_actions", default_actions)]
    \/ exists certificate_arn,
         v = PDict [("listener_arn", listener_arn); ("port", port);
                    ("protocol", protocol); ("default_actions", default_actions);
                    ("certificate_arn", certificate_arn)].

Definition elb_record (v : pyval) : Prop :=
  exists load_balancer_arn zones name dns_name security_groups state listeners,
    v = PDict [("load_balancer_arn", load_balancer_arn);
               ("zones", PList zones);
               ("name", name);
               ("dns_name", dns_name);
               ("security_groups", security_groups);
               ("state", state);
               ("listeners", PList listeners)]
    /\ Forall zone_record zones
    /\ Forall listener_record listeners.

(* ================================================================= *)
(** ** Running: general facts *)

(** A run known to have returned: name its parts, the provider's state
    afterwards as [w'], and use the result. *)
Tactic Notation "returned_run" hyp(H) "as" ident(w') :=
  match type of H with
  | outcome_of ?r = Returned _ =>
      let o := fresh "o" in
      let t := fresh "t" in
      destruct r as [[o t] w']; unfold outcome_of in H; simpl in H; subst o
  end.

Arguments item : simpl never.
Arguments index : simpl never.
Arguments py_iter : simpl never.
Arguments py_in : simpl never.

Lemma run_bind (P : provider) (A B : Type) (m : prog A) (f : A -> prog B) :
  forall w : world P,
    run P (bind m f) w =
      match run P m w with
      | (Returned a, t1, w1) =>
          let '(o, t2, w2) := run P (f a) w1 in (o, t1 ++ t2, w2)
      | (Raised e, t1, w1) => (Raised e, t1, w1)
      end.
Proof.
  induction m as [a | e | r k IH]; intros w; simpl.
  - destruct (run P (f a) w) as [[o t] w2]; reflexivity.
  - reflexivity.
  - destruct (serve P w r) as [resp w1].
    rewrite IH.
    destruct (run P (k resp) w1) as [[[a | e] t1] w2]; simpl.
    + destruct (run P (f a) w2) as [[o t2] w3]; reflexivity.
    + reflexivity.
Qed.

(** A bind that returns: its first part returned, and the rest ran from
    where it stopped. *)
Lemma run_bind_returned (P : provider) (A B : Type) (m : prog A)
  (f : A -> prog B) (w w' : world P) (b : B) (t : trace) :
  run P (bind m f) w = (Returned b, t, w') ->
  exists a t1 w1 t2,
    run P m w = (Returned a, t1, w1) /\
    run P (f a) w1 = (Returned b, t2, w') /\
    t = t1 ++ t2.
Proof.
  rewrite run_bind.
  destruct (run P m w) as [[[a | e] t1] w1]; [| discriminate].
  destruct (run P (f a) w1) as [[o t2] w2] eqn:Hf.
  intros H; inversion H; subst.
  exists a, t1, w1, t2. auto.
Qed.

(** The calls and the outcome of a bind, from those of its parts. *)
Lemma calls_of_run_bind (P : provider) (A B : Type) (m : prog A)
  (f : A -> prog B) (w : world P) :
  calls_of (run P (bind m f) w) =
    match outcome_of (run P m w) with
    | Returned a =>
        calls_of (run P m w) ++ calls_of (run P (f a) (world_of (run P m w)))
    | Raised _ => calls_of (run P m w)
    end.
Proof.
  rewrite run_bind.
  destruct (run P m w) as [[[a | e] t1] w1];
    cbn [outcome_of calls_of world_of fst snd]; [| reflexivity].
  destruct (run P (f a) w1) as [[o t2] w2]. reflexivity.
Qed.

Lemma outcome_of_run_bind (P : provider) (A B : Type) (m : prog A)
  (f : A -> prog B) (w : world P) :
  outcome_of (run P (bind m f) w) =
    match outcome_of (run P m w) with
    | Returned a => outcome_of (run P (f a) (world_of (run P m w)))
    | Raised e => Raised e
    end.
Proof.
  rewrite run_bind.
  destruct (run P m w) as [[[a | e] t1] w1];
    cbn [outcome_of calls_of world_of fst snd]; [| reflexivity].
  destruct (run P (f a) w1) as [[o t2] w2]. reflexivity.
Qed.

(** A pure program runs without calls and leaves the provider alone. *)
Lemma run_pure (P : provider) (A : Type) (p : prog A) (w : world P) :
  pure p -> run P p w = (pure_outcome p, [], w).
Proof. destruct p; simpl; intros H; [reflexivity | reflexivity | destruct H]. Qed.

Lemma run_guarded_call (P : provider) (r : request) (w : world P) :
  run P (guarded_call r) w =
    (match fst (serve P w r) with
     | inl v => Returned v
     | inr (BotoServerError c m) => Raised (FailJson (c ++ ": " ++ m))
     | inr e => Raised e
     end, [(r, fst (serve P w r))], snd (serve P w r)).
Proof.
  unfold guarded_call, call; simpl.
  destruct (serve P w r) as [[v | e] w1]; simpl; [reflexivity |].
  destruct e; reflexivity.
Qed.

(** *** Subscripts *)

Lemma item_field (v : pyval) (k : string) (x : pyval) :
  field k v = Some x -> item v k = Ret x.
Proof.
  destruct v; simpl; try discriminate.
  unfold item; simpl. intros ->. reflexivity.
Qed.

Lemma item_cases (v : pyval) (k : string) :
  (exists x, item v k = Ret x /\ field k v = Some x) \/
  (exists e, item v k = Throw e /\ field k v = None).
Proof.
  unfold item; destruct v; simpl; eauto.
  destruct (dict_get k entries); eauto.
Qed.

Lemma index_cases (v : pyval) (i : Z) :
  (exists x, index v i = Ret x) \/ (exists e, index v i = Throw e).
Proof.
  unfold index; destruct v; simpl; eauto.
  - destruct (seq_index (String.length s) i); eauto.
    destruct (nth_error (str_chars s) n); eauto.
  - destruct (seq_index (length items) i); eauto.
    destruct (nth_error items n); eauto.
Qed.

Lemma py_iter_cases (v : pyval) :
  (exists xs, py_iter v = Ret xs) \/ py_iter v = Throw TypeError.
Proof. unfold py_iter; destruct v; eauto. Qed.

Lemma index_first (x : pyval) (xs : list pyval) :
  index (PList (x :: xs)) 0 = Ret x.
Proof.
  unfold index, getitem, seq_index.
  replace (length (x :: xs)) with (S (length xs)) by reflexivity.
  rewrite Nat2Z.inj_succ.
  replace (0 <? 0)%Z with false by reflexivity.
  replace (0 <=? 0)%Z with true by reflexivity.
  replace (0 <? Z.succ (Z.of_nat (length xs)))%Z with true
    by (symmetry; apply Z.ltb_lt; lia).
  reflexivity.
Qed.

Lemma index_empty (i : Z) : index (PList []) i = Throw IndexError.
Proof.
  unfold index, getitem, seq_index; simpl.
  destruct (i <? 0)%Z eqn:Hi.
  - rewrite Z.add_0_r.
    replace (0 <=? i)%Z with false by (symmetry; apply Z.leb_gt, Z.ltb_lt, Hi).
    reflexivity.
  - replace (i <? 0)%Z with false. rewrite andb_false_r. reflexivity.
Qed.

(* ================================================================= *)
(** ** Failure of the listing call *)

(** C4, on the code as it is.  When the provider call that lists the load
    balancers raises, the run of [list_elbs] ends there: the listing call is
    the only call made (no listener is fetched) and nothing is returned.
    Only a [BotoServerError], the exception of boto, is caught and surfaces
    through [fail_json] as its error code and error message; any other
    exception, the [ClientError] of a boto3 client among them, is not
    caught: it leaves [list_elbs] as it came and [fail_json] is not
    called. *)
Theorem list_elbs_provider_failure :
  forall (P : provider) (w w' : world P) (names : list string) (e : exn),
    serve P w DescribeLoadBalancers = (inr e, w') ->
    run P (list_elbs names) w =
      (Raised (match e with
               | BotoServerError error_code error_message =>
                   FailJson (error_code ++ ": " ++ error_message)
               | _ => e
               end),
       [(DescribeLoadBalancers, inr e)], w').
Proof.
  intros P w w' names e H.
  unfold list_elbs.
  rewrite run_bind, run_guarded_call, H; simpl.
  destruct e; reflexivity.
Qed.

(** The denied account: the listing call fails with a [BotoServerError]
    AccessDenied, which is caught and reported. *)
Example list_elbs_access_denied :
  run Example.denied (list_elbs ["frontend-prod-elb"]) 0%nat =
    (Raised (FailJson "AccessDenied: not authorized to perform this operation"),
     [(DescribeLoadBalancers,
       inr (BotoServerError "AccessDenied" "not authorized to perform this operation"))],
     1%nat).
Proof. reflexivity. Qed.

(** The failure boto3 reports, a botocore [ClientError], is no
    [BotoServerError]: it is not caught, [fail_json] is not called, and the
    exception leaves [list_elbs] as it came. *)
Lemma list_elbs_client_error_escapes :
  run Example.denied_boto3 (list_elbs ["frontend-prod-elb"]) 0%nat =
    (Raised (ClientError "An error occurred (AccessDenied) when calling the DescribeLoadBalancers operation: not authorized"),
     [(DescribeLoadBalancers,
       inr (ClientError "An error occurred (AccessDenied) when calling the DescribeLoadBalancers operation: not authorized"))],
     1%nat).
Proof.
  exact (list_elbs_provider_failure Example.denied_boto3 0%nat
           ["frontend-prod-elb"] eq_refl).
Defined.

(* ================================================================= *)
(** ** No name filter *)

(** C1.  Without a name filter [list_elbs] hands the response dict itself to
    [map]: iterating a dict yields its keys, and [_get_elb_info] subscripts
    the first key, a string, with ['LoadBalancerArn'].  So for every response
    that is a dict with at least one key the run raises [TypeError] right
    after the listing call, and no record is returned. *)
Theorem list_elbs_without_filter_raises :
  forall (P : provider) (w w' : world P) (k : string) (v : pyval)
         (d : list (string * pyval)),
    serve P w DescribeLoadBalancers = (inl (PDict ((k, v) :: d)), w') ->
    run P (list_elbs []) w =
      (Raised TypeError,
       [(DescribeLoadBalancers, inl (PDict ((k, v) :: d)))], w').
Proof.
  intros P w w' k v d H.
  unfold list_elbs.
  rewrite run_bind, run_guarded_call, H; simpl.
  unfold py_iter, _get_elb_info, item; simpl.
  reflexivity.
Qed.

(** The example account, listed without a filter. *)
Lemma list_elbs_without_filter_raises_witness :
  run Example.aws (list_elbs []) 0%nat =
    (Raised TypeError,
     [(DescribeLoadBalancers, inl Example.all_elbs)], 1%nat).
Proof.
  exact (list_elbs_without_filter_raises Example.aws 0%nat eq_refl).
Defined.

(** The listing that fails above is served when the filter names every load
    balancer of the account. *)
Example list_elbs_all_names_returns :
  exists front back,
    outcome_of (run Example.aws
                  (list_elbs ["frontend-prod-elb"; "backend-prod-elb"]) 0%nat)
    = Returned (PList [front; back])
    /\ field "name" front = Some (PStr "frontend-prod-elb")
    /\ field "name" back = Some (PStr "backend-prod-elb").
Proof. do 2 eexists. split; [vm_compute; reflexivity | split; reflexivity]. Qed.

(* ================================================================= *)
(** ** Unresolved region *)



(** No region anywhere: the check of [main] reports it. *)
Example main_no_region_at_all :
  run Example.aws
      (main {| HAS_BOTO := true;
               get_aws_connection_info := fun _ => PNone;
               names := [] |}) 0%nat
  = (Raised (FailJson "region must be specified"), [], 0%nat).
Proof. reflexivity. Qed.

(** With a region, [main] does reach the provider. *)
Example main_with_region_calls :
  requests (calls_of (run Example.aws (main (Example.env ["backend-prod-elb"])) 0%nat))
  = [Boto3Conn "ec2" (PStr "us-east-1");
     Boto3Conn "elbv2" (PStr "us-east-1");
     DescribeLoadBalancers;
     DescribeListenersOf (PStr "arn:lb/back")].
Proof. vm_compute. reflexivity. Qed.

(* ================================================================= *)
(** ** Building the record of a load balancer *)

Lemma has_key_item (k : string) (v : pyval) :
  has_key k v = true -> exists x, field k v = Some x /\ item v k = Ret x.
Proof.
  unfold has_key. destruct (field k v) as [x |] eqn:H; [| discriminate].
  intros _. exists x. split; [reflexivity | apply item_field, H].
Qed.

Lemma zone_loop_ok (zones : list pyval) :
  forallb zone_ok zones = true ->
  forall acc, Forall zone_record acc ->
    exists zs,
      for_each zones (fun zone_list zone =>
        subnetid <- item zone "SubnetId" ;;
        zonename <- item zone "ZoneName" ;;
        let zone_dict := PDict [("subnetid", subnetid); ("zonename", zonename)] in
        Ret (zone_list ++ [zone_dict])) acc = Ret zs
      /\ Forall zone_record zs.
Proof.
  induction zones as [| z zones IH]; simpl; intros Hok acc Hacc.
  - exists acc. auto.
  - apply andb_prop in Hok as [Hz Hok].
    apply andb_prop in Hz as [Hs Hn].
    destruct (has_key_item _ _ Hs) as (s & _ & ->).
    destruct (has_key_item _ _ Hn) as (n & _ & ->); simpl.
    apply IH; [assumption |].
    apply Forall_app. split; [assumption |].
    constructor; [| constructor].
    do 2 eexists; reflexivity.
Qed.

Lemma get_zone_info_ok (zones : list pyval) :
  forallb zone_ok zones = true ->
  exists zs, _get_zone_info (PList zones) = Ret (PList zs)
             /\ Forall zone_record zs.
Proof.
  intros Hok.
  destruct (zone_loop_ok zones Hok (acc := [])) as (zs & Hzs & Hrec);
    [constructor |].
  exists zs. split; [| assumption].
  unfold _get_zone_info. unfold py_iter; simpl.
  cbv zeta in Hzs. rewrite Hzs. reflexivity.
Qed.

(** For a well-formed load balancer everything but the listener fetch is
    settled: [_get_elb_info] fetches the listeners of its ARN and returns
    the record with them. *)
Lemma get_elb_info_ok (elb : pyval) :
  load_balancer_ok elb = true ->
  exists load_balancer_arn zones name dns_name security_groups state,
    field "LoadBalancerArn" elb = Some load_balancer_arn /\
    field "LoadBalancerName" elb = Some (PStr name) /\
    field "DNSName" elb = Some dns_name /\
    field "SecurityGroups" elb = Some security_groups /\
    Forall zone_record zones /\
    _get_elb_info elb =
      (listeners <- _get_listeners load_balancer_arn ;;
       Ret (PDict [("load_balancer_arn", load_balancer_arn);
                   ("zones", PList zones);
                   ("name", PStr name);
                   ("dns_name", dns_name);
                   ("security_groups", security_groups);
                   ("state", state);
                   ("listeners", listeners)])).
Proof.
  unfold load_balancer_ok. intros H.
  repeat (apply andb_prop in H as [H ?]).
  destruct (field "AvailabilityZones" elb) as [[| | | | zones |] |] eqn:Hazs;
    try discriminate.
  destruct (field "LoadBalancerName" elb) as [[| | | name | |] |] eqn:Hname;
    try discriminate.
  destruct (field "State" elb) as [st |] eqn:Hst; try discriminate.
  destruct (get_zone_info_ok zones) as (zs & Hzs & Hrec); [assumption |].
  destruct (has_key_item _ _ H) as (arn & Harn & Hiarn).
  destruct (has_key_item "DNSName" elb) as (dns & Hdns & Hidns); [assumption |].
  destruct (has_key_item "SecurityGroups" elb) as (sgs & Hsgs & Hisgs);
    [assumption |].
  destruct (has_key_item "Code" st) as (code & Hcode & Hicode); [assumption |].
  exists arn, zs, name, dns, sgs, code.
  repeat (split; [assumption || reflexivity |]).
  unfold _get_elb_info.
  rewrite Hiarn, (item_field _ _ Hazs), (item_field _ _ Hname), Hidns, Hisgs,
    (item_field _ _ Hst); simpl.
  rewrite Hzs; simpl.
  rewrite Hicode; simpl.
  reflexivity.
Qed.

(* ================================================================= *)
(** ** A load balancer without listeners *)

(** C6.  When the provider enumerates no listener for a load balancer, the
    listener fetch makes that one call and returns the empty list, and the
    record built for a well-formed load balancer with that ARN has the key
    [listeners], bound to the empty list. *)
Theorem no_listeners_empty_sequence :
  forall (P : provider) (w w' : world P) (lb_arn listeners : pyval),
    serve P w (DescribeListenersOf lb_arn) = (inl listeners, w') ->
    field "Listeners" listeners = Some (PList []) ->
    run P (_get_listeners lb_arn) w =
      (Returned (PList []), [(DescribeListenersOf lb_arn, inl listeners)], w')
    /\ forall elb : pyval,
        load_balancer_ok elb = true ->
        field "LoadBalancerArn" elb = Some lb_arn ->
        exists info,
          run P (_get_elb_info elb) w =
            (Returned info, [(DescribeListenersOf lb_arn, inl listeners)], w')
          /\ elb_record info
          /\ field "listeners" info = Some (PList []).
Proof.
  intros P w w' lb_arn listeners Hserve Hls.
  assert (Hfetch : run P (_get_listeners lb_arn) w =
            (Returned (PList []),
             [(DescribeListenersOf lb_arn, inl listeners)], w')).
  { unfold _get_listeners.
    rewrite run_bind, run_guarded_call, Hserve; simpl.
    unfold collect_listener_arns.
    rewrite (item_field _ _ Hls); simpl.
    reflexivity. }
  split; [exact Hfetch |].
  intros elb Hok Harn.
  destruct (get_elb_info_ok elb Hok)
    as (arn & zones & name & dns & sgs & state & Harn' & _ & _ & _ & Hz & ->).
  rewrite Harn in Harn'. inversion Harn'; subst arn.
  rewrite run_bind, Hfetch; simpl.
  eexists. split; [reflexivity |].
  split; [| reflexivity].
  exists lb_arn, zones, (PStr name), dns, sgs, state, [].
  auto.
Qed.

(** backend-prod-elb of the example account has no listener. *)
Lemma no_listeners_empty_sequence_witness :
  run Example.aws (_get_listeners (PStr "arn:lb/back")) 0%nat =
    (Returned (PList []),
     [(DescribeListenersOf (PStr "arn:lb/back"),
       inl (PDict [("Listeners", PList []); Example.metadata]))], 1%nat)
  /\ forall elb : pyval,
      load_balancer_ok elb = true ->
      field "LoadBalancerArn" elb = Some (PStr "arn:lb/back") ->
      exists info,
        run Example.aws (_get_elb_info elb) 0%nat =
          (Returned info,
           [(DescribeListenersOf (PStr "arn:lb/back"),
             inl (PDict [("Listeners", PList []); Example.metadata]))], 1%nat)
        /\ elb_record info
        /\ field "listeners" info = Some (PList []).
Proof.
  exact (no_listeners_empty_sequence Example.aws 0%nat (PStr "arn:lb/back")
           eq_refl eq_refl).
Defined.

Example backend_record_has_empty_listeners :
  exists info,
    outcome_of (run Example.aws (_get_elb_info Example.backend) 0%nat)
    = Returned info
    /\ field "listeners" info = Some (PList []).
Proof. eexists. split; [vm_compute; reflexivity | reflexivity]. Qed.

(* ================================================================= *)
(** ** The certificate of a listener *)

(** C3, as the code has it.  For a listener detail with the four copied
    fields, the record gets [certificate_arn] exactly when the certificate
    list has a first entry whose [CertificateArn] is a non-empty value, and
    then it is that value; when the certificate list is absent or empty, or
    its first entry has no [CertificateArn] or an empty one, the record is
    built without that key and nothing is raised. *)
Theorem build_listener_dict_certificate :
  forall listener listener_arn port protocol default_actions : pyval,
    field "ListenerArn" listener = Some listener_arn ->
    field "Port" listener = Some port ->
    field "Protocol" listener = Some protocol ->
    field "DefaultActions" listener = Some default_actions ->
    let listener_dict :=
      [("listener_arn", listener_arn); ("port", port);
       ("protocol", protocol); ("default_actions", default_actions)] in
    (forall (first : pyval) (rest : list pyval) (certificate_arn : pyval),
        field "Certificates" listener = Some (PList (first :: rest)) ->
        field "CertificateArn" first = Some certificate_arn ->
        truthy certificate_arn = true ->
        build_listener_dict listener =
          Ret (PDict (listener_dict ++ [("certificate_arn", certificate_arn)])))
    /\ (field "Certificates" listener = None ->
        build_listener_dict listener = Ret (PDict listener_dict))
    /\ (field "Certificates" listener = Some (PList []) ->
        build_listener_dict listener = Ret (PDict listener_dict))
    /\ (forall (first : pyval) (rest : list pyval) (certificate_arn : pyval),
        field "Certificates" listener = Some (PList (first :: rest)) ->
        field "CertificateArn" first = Some certificate_arn ->
        truthy certificate_arn = false ->
        build_listener_dict listener = Ret (PDict listener_dict))
    /\ (forall (entries : list (string * pyval)) (rest : list pyval),
        field "Certificates" listener = Some (PList (PDict entries :: rest)) ->
        dict_get "CertificateArn" entries = None ->
        build_listener_dict listener = Ret (PDict listener_dict)).
Proof.
  intros listener listener_arn port protocol default_actions Ha Hp Hr Hd.
  assert (Hstart : forall B (k : pyval -> pyval -> pyval -> pyval -> prog B),
            (a <- item listener "ListenerArn" ;;
             p <- item listener "Port" ;;
             r <- item listener "Protocol" ;;
             d <- item listener "DefaultActions" ;; k a p r d)
            = k listener_arn port protocol default_actions).
  { intros B k.
    rewrite (item_field _ _ Ha), (item_field _ _ Hp), (item_field _ _ Hr),
      (item_field _ _ Hd).
    reflexivity. }
  unfold build_listener_dict. rewrite Hstart. cbv zeta.
  repeat split.
  - intros first rest arn Hc Hf Ht.
    rewrite (item_field _ _ Hc); simpl.
    rewrite ?index_first; simpl.
    rewrite (item_field _ _ Hf); simpl.
    rewrite Ht. reflexivity.
  - intros Hc.
    destruct (item_cases listener "Certificates") as [(x & _ & Hx) | (e & He & _)];
      [congruence |].
    destruct listener; try discriminate.
    unfold item, getitem. simpl in Hc. rewrite Hc. reflexivity.
  - intros Hc.
    rewrite (item_field _ _ Hc); simpl.
    rewrite ?index_empty. reflexivity.
  - intros first rest arn Hc Hf Ht.
    rewrite (item_field _ _ Hc); simpl.
    rewrite ?index_first; simpl.
    rewrite (item_field _ _ Hf); simpl.
    rewrite Ht. reflexivity.
  - intros entries rest Hc Hf.
    rewrite (item_field _ _ Hc); simpl.
    rewrite ?index_first; simpl.
    unfold item, getitem. rewrite Hf. reflexivity.
Qed.

(** The HTTPS listener of the example has two certificates: the record gets
    the first. *)
Lemma build_listener_dict_certificate_witness :
  build_listener_dict Example.https_listener =
    Ret (PDict [("listener_arn", PStr "arn:listener/front/443");
                ("port", PInt 443);
                ("protocol", PStr "HTTPS");
                ("default_actions",
                  PList [PDict [("Type", PStr "forward");
                                ("TargetGroupArn", PStr "arn:tg/web")]]);
                ("certificate_arn", PStr "arn:cert/one")]).
Proof.
  exact (proj1 (build_listener_dict_certificate Example.https_listener
                  eq_refl eq_refl eq_refl eq_refl)
           _ _ _ eq_refl eq_refl eq_refl).
Defined.

(** C3 as the spec states it fails where the first certificate entry carries
    an empty ARN: the list has an entry, its ARN is the empty string, and the
    record has no [certificate_arn] at all. *)
Lemma certificate_arn_empty_is_omitted :
  let listener :=
    PDict [("ListenerArn", PStr "arn:listener/front/443");
           ("Port", PInt 443);
           ("Protocol", PStr "HTTPS");
           ("Certificates", PList [PDict [("CertificateArn", PStr "")]]);
           ("DefaultActions", PList [])] in
  exists (first record : pyval),
    field "Certificates" listener = Some (PList [first]) /\
    field "CertificateArn" first = Some (PStr "") /\
    build_listener_dict listener = Ret record /\
    field "certificate_arn" record = None.
Proof.
  do 2 eexists.
  split; [reflexivity |].
  split; [reflexivity |].
  split; [vm_compute; reflexivity | reflexivity].
Qed.

(** The records of the example's load balancer: the HTTPS listener gets the
    first of its two certificates, the HTTP listener gets none. *)
Example frontend_listeners :
  exists https http,
    outcome_of (run Example.aws (_get_listeners (PStr "arn:lb/front")) 0%nat)
    = Returned (PList [https; http])
    /\ field "certificate_arn" https = Some (PStr "arn:cert/one")
    /\ field "certificate_arn" http = None.
Proof. do 2 eexists. split; [vm_compute; reflexivity | split; reflexivity]. Qed.

(* ================================================================= *)
(** ** The result is a function of the provider's responses *)

(** Two runs of one program that were given the same responses made the
    same calls and ended the same way, whatever the providers and their
    states were. *)
Lemma run_determined (A : Type) (p : prog A) :
  forall (P1 P2 : provider) (w1 : world P1) (w2 : world P2),
    responses (calls_of (run P1 p w1)) = responses (calls_of (run P2 p w2)) ->
    outcome_of (run P1 p w1) = outcome_of (run P2 p w2) /\
    calls_of (run P1 p w1) = calls_of (run P2 p w2).
Proof.
  induction p as [a | e | r k IH]; intros P1 P2 w1 w2; simpl; auto.
  destruct (serve P1 w1 r) as [resp1 w1'].
  destruct (serve P2 w2 r) as [resp2 w2'].
  destruct (run P1 (k resp1) w1') as [[o1 t1] v1] eqn:H1.
  destruct (run P2 (k resp2) w2') as [[o2 t2] v2] eqn:H2.
  unfold outcome_of, calls_of, responses; simpl.
  intros H. inversion H as [[Hresp Ht]]. subst.
  specialize (IH resp2 P1 P2 w1' w2').
  rewrite H1, H2 in IH. unfold outcome_of, calls_of, responses in IH.
  simpl in IH.
  destruct (IH Ht) as [-> ->]. auto.
Qed.

(** C9.  [list_elbs] keeps nothing between calls: two calls, started in any
    two states of the provider (the second, say, where the first left it),
    that receive the same responses return the same result, or fail the same
    way, after the same calls. *)
Theorem list_elbs_deterministic :
  forall (P : provider) (names : list string) (w1 w2 : world P),
    responses (calls_of (run P (list_elbs names) w1))
    = responses (calls_of (run P (list_elbs names) w2)) ->
    outcome_of (run P (list_elbs names) w1)
    = outcome_of (run P (list_elbs names) w2)
    /\ calls_of (run P (list_elbs names) w1)
       = calls_of (run P (list_elbs names) w2).
Proof.
  intros P names w1 w2. apply run_determined.
Qed.

(** Listing the example account twice in succession. *)
Lemma list_elbs_deterministic_witness :
  let first := run Example.aws (list_elbs ["frontend-prod-elb"]) 0%nat in
  let second := run Example.aws (list_elbs ["frontend-prod-elb"]) (world_of first) in
  outcome_of first = outcome_of second /\ calls_of first = calls_of second.
Proof.
  exact (list_elbs_deterministic Example.aws ["frontend-prod-elb"] 0%nat
           (world_of (run Example.aws (list_elbs ["frontend-prod-elb"]) 0%nat))
           eq_refl).
Defined.

(* ================================================================= *)
(** ** Programs that make no call *)

Lemma pure_bind (A B : Type) (m : prog A) (f : A -> prog B) :
  pure m -> (forall a, pure (f a)) -> pure (bind m f).
Proof. destruct m; simpl; auto. Qed.

Lemma pure_try_except_else (A B : Type) (body : prog A)
  (handler : exn -> option (prog B)) (orelse : A -> prog B) :
  pure body ->
  (forall e h, handler e = Some h -> pure h) ->
  (forall a, pure (orelse a)) ->
  pure (try_except_else body handler orelse).
Proof.
  destruct body as [a | e | r k]; simpl; auto.
  intros _ Hh _. destruct (handler e) as [h |] eqn:He; simpl; eauto.
Qed.

Lemma pure_item (v : pyval) (k : string) : pure (item v k).
Proof.
  destruct (item_cases v k) as [(x & -> & _) | (e & -> & _)]; exact I.
Qed.

Lemma pure_index (v : pyval) (i : Z) : pure (index v i).
Proof. destruct (index_cases v i) as [(x & ->) | (e & ->)]; exact I. Qed.

Lemma pure_py_iter (v : pyval) : pure (py_iter v).
Proof. destruct (py_iter_cases v) as [(x & ->) | ->]; exact I. Qed.

Lemma pure_for_each (S : Type) (body : S -> pyval -> prog S) :
  (forall acc x, pure (body acc x)) ->
  forall xs acc, pure (for_each xs body acc).
Proof.
  intros Hb. induction xs as [| x xs IH]; intros acc; simpl; [exact I |].
  apply pure_bind; auto.
Qed.

Create HintDb pure.
#[local] Hint Resolve pure_bind pure_item pure_index pure_py_iter
  pure_for_each pure_try_except_else : pure.

Lemma pure_build_listener_dict (listener : pyval) :
  pure (build_listener_dict listener).
Proof.
  unfold build_listener_dict.
  repeat (apply pure_bind; [apply pure_item | intros ?]).
  apply pure_try_except_else.
  - auto 6 with pure.
  - intros [] h H; inversion H; exact I.
  - intros c. destruct (truthy c); exact I.
Qed.

Lemma pure_collect_listener_arns (listeners : pyval) :
  pure (collect_listener_arns listeners).
Proof.
  unfold collect_listener_arns.
  apply pure_bind; [apply pure_item | intros ls].
  apply pure_bind; [apply pure_py_iter | intros xs].
  apply pure_for_each. intros acc x.
  apply pure_bind; [apply pure_item | intros a; exact I].
Qed.

Lemma pure_record_listeners (vars : option pyval * list pyval)
  (listener_data : pyval) :
  pure (record_listeners vars listener_data).
Proof.
  destruct vars as [listener_dict listener_list]. unfold record_listeners.
  apply pure_bind; [apply pure_item | intros ls].
  apply pure_bind; [apply pure_py_iter | intros xs].
  apply pure_bind.
  - apply pure_for_each. intros acc x.
    apply pure_bind; [apply pure_build_listener_dict | intros d; exact I].
  - intros [d |]; exact I.
Qed.

Lemma bind_ret_inv (A B : Type) (m : prog A) (f : A -> prog B) (b : B) :
  bind m f = Ret b -> exists a, m = Ret a /\ f a = Ret b.
Proof. destruct m; simpl; try discriminate. eauto. Qed.

Lemma for_each_ret_inv (S : Type) (body : S -> pyval -> prog S)
  (I : S -> Prop) :
  (forall acc x acc', I acc -> body acc x = Ret acc' -> I acc') ->
  forall xs acc r, I acc -> for_each xs body acc = Ret r -> I r.
Proof.
  intros Hb. induction xs as [| x xs IH]; simpl; intros acc r Hacc H.
  - inversion H; subst; assumption.
  - apply bind_ret_inv in H as (acc' & H1 & H2). eauto.
Qed.

(* ================================================================= *)
(** ** The listener fetch *)

(** A turn that completes has appended one dict, the current [listener_dict]. *)
Lemma record_listeners_ret (listener_dict : option pyval)
  (listener_list : list pyval) (listener_data : pyval)
  (vars : option pyval * list pyval) :
  record_listeners (listener_dict, listener_list) listener_data = Ret vars ->
  exists d, vars = (Some d, listener_list ++ [d]).
Proof.
  unfold record_listeners. intros H.
  apply bind_ret_inv in H as (ls & _ & H).
  apply bind_ret_inv in H as (xs & _ & H).
  apply bind_ret_inv in H as ([d |] & _ & H); [| discriminate].
  inversion H. eauto.
Qed.

Section ListenerFetch.

Variable P : provider.

(** A turn of the outer loop makes one call, the detail call for its ARN. *)
Lemma run_fetch_listener (vars : option pyval * list pyval) (arn : pyval)
  (w : world P) :
  run P (fetch_listener vars arn) w =
    (match fst (serve P w (DescribeListeners [arn])) with
     | inl listener_data => pure_outcome (record_listeners vars listener_data)
     | inr (BotoServerError c m) => Raised (FailJson (c ++ ": " ++ m))
     | inr e => Raised e
     end,
     [(DescribeListeners [arn], fst (serve P w (DescribeListeners [arn])))],
     snd (serve P w (DescribeListeners [arn]))).
Proof.
  unfold fetch_listener.
  rewrite run_bind, run_guarded_call.
  destruct (fst (serve P w (DescribeListeners [arn]))) as [data | e].
  - rewrite run_pure by apply pure_record_listeners. reflexivity.
  - destruct e; reflexivity.
Qed.

(** The outer loop asks for the details in the order of the ARNs, stops at
    the first turn that fails, and when it completes it has asked for every
    ARN once and appended one record per ARN. *)
Lemma fetch_loop_calls :
  forall (arns : list pyval) (vars : option pyval * list pyval) (w : world P),
    prefix (requests (calls_of (run P (for_each arns fetch_listener vars) w)))
           (detail_requests arns)
    /\ forall vars',
        outcome_of (run P (for_each arns fetch_listener vars) w) = Returned vars' ->
        requests (calls_of (run P (for_each arns fetch_listener vars) w))
        = detail_requests arns
        /\ length (snd vars') = (length (snd vars) + length arns)%nat.
Proof.
  induction arns as [| a arns IH]; intros vars w.
  - simpl. split; [exists []; reflexivity |].
    unfold outcome_of; simpl. intros vars' H; inversion H; subst.
    split; [reflexivity | lia].
  - cbn [for_each]. rewrite run_bind, run_fetch_listener.
    destruct (fst (serve P w (DescribeListeners [a]))) as [data | e].
    + destruct (record_listeners vars data) as [vars1 | e | r k] eqn:Hturn;
        simpl.
      * specialize (IH vars1 (snd (serve P w (DescribeListeners [a])))).
        destruct (run P (for_each arns fetch_listener vars1)
                    (snd (serve P w (DescribeListeners [a]))))
          as [[o t] w2].
        unfold outcome_of, calls_of, requests in *; simpl in *.
        destruct IH as [[rest Hrest] IH].
        split; [exists rest; rewrite Hrest; reflexivity |].
        intros vars' Ho. destruct (IH vars' Ho) as [Hreq Hlen].
        split; [rewrite Hreq; reflexivity |].
        destruct vars as [ld ll].
        apply record_listeners_ret in Hturn as [d ->]; simpl in *.
        rewrite Hlen, length_app; simpl. lia.
      * split; [exists (detail_requests arns); reflexivity |].
        unfold outcome_of; simpl; discriminate.
      * split; [exists (detail_requests arns); reflexivity |].
        unfold outcome_of; simpl; discriminate.
    + destruct e; simpl;
        (split; [exists (detail_requests arns); reflexivity |]);
        unfold outcome_of; simpl; discriminate.
Qed.

Lemma arns_loop_ok (ls : list pyval) :
  forallb (has_key "ListenerArn") ls = true ->
  forall acc,
    for_each ls (fun listener_arns listener =>
      a <- item listener "ListenerArn" ;;
      Ret (listener_arns ++ [a])) acc
    = Ret (acc ++ flat_map (fun l => match field "ListenerArn" l with
                                     | Some a => [a]
                                     | None => []
                                     end) ls).
Proof.
  induction ls as [| l ls IH]; simpl; intros Hok acc.
  - rewrite app_nil_r. reflexivity.
  - apply andb_prop in Hok as [Hl Hok].
    destruct (has_key_item _ _ Hl) as (a & Hf & Hi).
    rewrite Hi, Hf; simpl.
    rewrite IH by assumption. rewrite <- app_assoc. reflexivity.
Qed.

(** The first loop collects the ARNs the enumeration lists. *)
Lemma collect_listener_arns_ok (listeners : pyval) :
  enumeration_ok listeners = true ->
  collect_listener_arns listeners = Ret (listed_arns listeners).
Proof.
  unfold enumeration_ok, listed_arns, listeners_of, collect_listener_arns.
  destruct (field "Listeners" listeners) as [[| | | | ls |] |] eqn:Hls;
    try discriminate.
  intros Hok.
  rewrite (item_field _ _ Hls); simpl.
  unfold py_iter; simpl.
  apply (arns_loop_ok ls Hok []).
Qed.

Lemma run_fetch_listeners (arns : list pyval) (w : world P) :
  run P (fetch_listeners arns) w =
    match run P (for_each arns fetch_listener (None, [])) w with
    | (Returned vars, t, w') => (Returned (PList (snd vars)), t, w')
    | (Raised e, t, w') => (Raised e, t, w')
    end.
Proof.
  unfold fetch_listeners. rewrite run_bind.
  destruct (run P (for_each arns fetch_listener (None, [])) w)
    as [[[vars | e] t] w']; simpl; [rewrite app_nil_r |]; reflexivity.
Qed.

(** After a successful enumeration, [_get_listeners] is the second loop run
    on the enumerated ARNs. *)
Lemma run_get_listeners (w w1 : world P) (lb_arn listeners : pyval) :
  serve P w (DescribeListenersOf lb_arn) = (inl listeners, w1) ->
  enumeration_ok listeners = true ->
  run P (_get_listeners lb_arn) w =
    (outcome_of (run P (fetch_listeners (listed_arns listeners)) w1),
     (DescribeListenersOf lb_arn, inl listeners)
       :: calls_of (run P (fetch_listeners (listed_arns listeners)) w1),
     world_of (run P (fetch_listeners (listed_arns listeners)) w1)).
Proof.
  intros Hserve Hok.
  unfold _get_listeners.
  rewrite run_bind, run_guarded_call, Hserve; simpl.
  rewrite (collect_listener_arns_ok _ Hok); simpl.
  destruct (run P (fetch_listeners (listed_arns listeners)) w1) as [[o t] w2].
  reflexivity.
Qed.

(** The calls of the second loop, and the size of what it returns. *)
Lemma fetch_listeners_calls (arns : list pyval) (w : world P) :
  prefix (requests (calls_of (run P (fetch_listeners arns) w)))
         (detail_requests arns)
  /\ forall recs,
      outcome_of (run P (fetch_listeners arns) w) = Returned recs ->
      requests (calls_of (run P (fetch_listeners arns) w)) = detail_requests arns
      /\ exists items, recs = PList items /\ length items = length arns.
Proof.
  rewrite run_fetch_listeners.
  destruct (fetch_loop_calls arns (None, []) w) as [Hpre Hall].
  destruct (run P (for_each arns fetch_listener (None, [])) w)
    as [[[vars | e] t] w2];
    cbn [calls_of outcome_of fst snd] in *.
  - split; [exact Hpre |].
    intros recs H. inversion H; subst.
    destruct (Hall vars eq_refl) as [Hreq Hlen].
    split; [exact Hreq |].
    exists (snd vars). split; [reflexivity | exact Hlen].
  - split; [exact Hpre | intros recs H; discriminate].
Qed.

End ListenerFetch.

(* ================================================================= *)
(** ** The record of a listener *)

Lemma try_except_else_ret_inv (A B : Type) (body : prog A)
  (handler : exn -> option (prog B)) (orelse : A -> prog B) (b : B) :
  try_except_else body handler orelse = Ret b ->
  (exists a, body = Ret a /\ orelse a = Ret b) \/
  (exists e, body = Throw e /\ handler e = Some (Ret b)).
Proof.
  destruct body as [a | e | r k]; simpl; try discriminate.
  - eauto.
  - destruct (handler e) as [h |] eqn:He; [| discriminate].
    intros ->. eauto.
Qed.

(** Whatever the listener detail, a dict that is built is a listener record. *)
Lemma build_listener_dict_record (listener d : pyval) :
  build_listener_dict listener = Ret d -> listener_record d.
Proof.
  unfold build_listener_dict. intros H.
  apply bind_ret_inv in H as (listener_arn & _ & H).
  apply bind_ret_inv in H as (port & _ & H).
  apply bind_ret_inv in H as (protocol & _ & H).
  apply bind_ret_inv in H as (default_actions & _ & H).
  exists listener_arn, port, protocol, default_actions.
  apply try_except_else_ret_inv in H as [(c & _ & H) | (e & _ & H)].
  - destruct (truthy c); inversion H; simpl; eauto.
  - destruct e; inversion H; auto.
Qed.

Lemma item_absent (k k' : string) (v : pyval) :
  has_key k' v = true -> field k v = None -> item v k = Throw KeyError.
Proof.
  unfold has_key, item. destruct v; simpl; try discriminate.
  intros _ ->. reflexivity.
Qed.

(** A well-formed listener detail gives a record. *)
Lemma build_listener_dict_ok (listener : pyval) :
  listener_ok listener = true ->
  exists d, build_listener_dict listener = Ret d.
Proof.
  unfold listener_ok. intros H.
  repeat (apply andb_prop in H as [H ?]).
  assert (Ha := H).
  destruct (has_key_item _ _ H) as (a & _ & Hia).
  destruct (has_key_item "Port" listener) as (p & _ & Hip); [assumption |].
  destruct (has_key_item "Protocol" listener) as (r & _ & Hir); [assumption |].
  destruct (has_key_item "DefaultActions" listener) as (d & _ & Hid);
    [assumption |].
  unfold build_listener_dict. rewrite Hia, Hip, Hir, Hid; simpl.
  destruct (field "Certificates" listener) as [[| | | | [| first rest] |] |]
    eqn:Hc; try discriminate.
  - rewrite (item_field _ _ Hc); simpl.
    rewrite ?index_empty; simpl. eauto.
  - destruct first as [| | | | | entries]; try discriminate.
    rewrite (item_field _ _ Hc); simpl.
    rewrite ?index_first; simpl.
    unfold item, getitem.
    destruct (dict_get "CertificateArn" entries) as [c |]; simpl; eauto.
    destruct (truthy c); eauto.
  - rewrite (@item_absent "Certificates" _ _ Ha Hc); simpl. eauto.
Qed.

(** The inner loop over well-formed listeners leaves the record of the last
    one in [listener_dict], whatever it held before. *)
Lemma inner_loop_last (ls : list pyval) (last : pyval) :
  forallb listener_ok (ls ++ [last]) = true ->
  forall listener_dict : option pyval,
    exists d,
      build_listener_dict last = Ret d /\
      for_each (ls ++ [last]) (fun _ listener =>
        d <- build_listener_dict listener ;; Ret (Some d)) listener_dict
      = Ret (Some d).
Proof.
  induction ls as [| l ls IH]; simpl; intros Hok listener_dict.
  - apply andb_prop in Hok as [Hl _].
    destruct (build_listener_dict_ok _ Hl) as (d & Hd).
    exists d. rewrite Hd. auto.
  - apply andb_prop in Hok as [Hl Hok].
    destruct (build_listener_dict_ok _ Hl) as (d & Hd).
    rewrite Hd; simpl. apply IH, Hok.
Qed.

(** The record built for a well-formed listener detail is the record of
    that listener. *)
Lemma build_listener_dict_of (listener : pyval) :
  listener_ok listener = true ->
  build_listener_dict listener = Ret (listener_record_of listener).
Proof.
  unfold listener_ok. intros H.
  repeat (apply andb_prop in H as [H ?]).
  assert (Ha := H).
  destruct (has_key_item _ _ H) as (a & Hfa & Hia).
  destruct (has_key_item "Port" listener) as (p & Hfp & Hip); [assumption |].
  destruct (has_key_item "Protocol" listener) as (r & Hfr & Hir); [assumption |].
  destruct (has_key_item "DefaultActions" listener) as (d & Hfd & Hid);
    [assumption |].
  unfold listener_record_of, certificate_of, field_value, build_listener_dict.
  rewrite Hia, Hip, Hir, Hid, Hfa, Hfp, Hfr, Hfd; simpl.
  destruct (field "Certificates" listener) as [[| | | | [| first rest] |] |]
    eqn:Hc; try discriminate.
  - rewrite (item_field _ _ Hc); simpl.
    rewrite ?index_empty; simpl. reflexivity.
  - destruct first as [| | | | | entries]; try discriminate.
    rewrite (item_field _ _ Hc); simpl.
    rewrite ?index_first; simpl.
    unfold item, getitem.
    destruct (dict_get "CertificateArn" entries) as [c |]; simpl;
      [| reflexivity].
    destruct (truthy c); reflexivity.
  - rewrite (@item_absent "Certificates" _ _ Ha Hc); simpl. reflexivity.
Qed.

(** The inner loop over well-formed listeners leaves the record of the last
    listener. *)
Lemma inner_loop_record (front : list pyval) (last : pyval) :
  forallb listener_ok (front ++ [last]) = true ->
  forall listener_dict : option pyval,
    for_each (front ++ [last]) (fun _ listener =>
      d <- build_listener_dict listener ;; Ret (Some d)) listener_dict
    = Ret (Some (listener_record_of last)).
Proof.
  intros Hok listener_dict.
  destruct (inner_loop_last front last Hok listener_dict) as (d & Hd & Hloop).
  rewrite forallb_app in Hok. apply andb_prop in Hok as [_ Hlast].
  simpl in Hlast. rewrite andb_true_r in Hlast.
  rewrite (build_listener_dict_of last Hlast) in Hd.
  inversion Hd; subst d. exact Hloop.
Qed.

Lemma last_listener_none (listener_data : pyval) :
  field "Listeners" listener_data = Some (PList []) ->
  last_listener listener_data = None.
Proof. unfold last_listener, listeners_of. intros ->. reflexivity. Qed.

Lemma last_listener_some (listener_data : pyval) (front : list pyval)
  (last : pyval) :
  field "Listeners" listener_data = Some (PList (front ++ [last])) ->
  last_listener listener_data = Some last.
Proof.
  unfold last_listener, listeners_of. intros ->.
  rewrite map_app. simpl. apply last_last.
Qed.

(** A turn on a detail response with well-formed listeners: the record of
    the last listener, or the record left over, is appended; with neither,
    [listener_dict] is unbound at the append. *)
Lemma record_listeners_spec (listener_dict : option pyval)
  (listener_list : list pyval) (listener_data : pyval) :
  detail_listeners_ok listener_data = true ->
  record_listeners (listener_dict, listener_list) listener_data =
    match match last_listener listener_data with
          | Some listener => Some (listener_record_of listener)
          | None => listener_dict
          end with
    | Some d => Ret (Some d, listener_list ++ [d])
    | None => Throw UnboundLocalError
    end.
Proof.
  unfold detail_listeners_ok.
  destruct (field "Listeners" listener_data) as [[| | | | ls |] |] eqn:Hls;
    try discriminate.
  intros Hok. destruct ls as [| l ls].
  - rewrite (last_listener_none _ Hls).
    unfold record_listeners. rewrite (item_field _ _ Hls); simpl.
    destruct listener_dict; reflexivity.
  - destruct (exists_last (l := l :: ls)) as (front & last & Hsplit);
      [discriminate |].
    rewrite Hsplit in Hok, Hls.
    rewrite (last_listener_some _ _ _ Hls).
    unfold record_listeners.
    rewrite (item_field _ _ Hls); simpl.
    unfold py_iter; simpl.
    rewrite (inner_loop_record front last Hok listener_dict); simpl.
    reflexivity.
Qed.

Section FetchRecords.

Variable P : provider.

(** The outer loop, read off the responses it received: when they are all
    detail responses with well-formed listeners, what it appends is
    [records_of_details] of them. *)
Lemma fetch_loop_records :
  forall (arns details : list pyval) (listener_dict : option pyval)
         (listener_list : list pyval) (w : world P),
    responses (calls_of (run P (for_each arns fetch_listener
                                  (listener_dict, listener_list)) w))
    = map inl details ->
    forallb detail_listeners_ok details = true ->
    match records_of_details listener_dict details with
    | Some ds =>
        exists d,
          outcome_of (run P (for_each arns fetch_listener
                               (listener_dict, listener_list)) w)
          = Returned (d, listener_list ++ ds)
    | None =>
        outcome_of (run P (for_each arns fetch_listener
                             (listener_dict, listener_list)) w)
        = Raised UnboundLocalError
    end.
Proof.
  induction arns as [| a arns IH];
    intros details listener_dict listener_list w Hresp Hok.
  - destruct details as [| data rest]; [| discriminate].
    simpl. exists listener_dict. rewrite app_nil_r. reflexivity.
  - cbn [for_each] in *.
    rewrite calls_of_run_bind, run_fetch_listener in Hresp.
    rewrite outcome_of_run_bind, run_fetch_listener.
    cbn [outcome_of calls_of world_of fst snd] in *.
    destruct (fst (serve P w (DescribeListeners [a]))) as [data | e].
    + destruct details as [| data' rest].
      { destruct (pure_outcome (record_listeners (listener_dict, listener_list) data));
          discriminate. }
      assert (data' = data) as ->.
      { destruct (pure_outcome (record_listeners (listener_dict, listener_list) data));
          inversion Hresp; reflexivity. }
      simpl in Hok. apply andb_prop in Hok as [Hdata Hrest].
      rewrite (record_listeners_spec listener_dict listener_list data Hdata)
        in Hresp |- *.
      cbn [records_of_details].
      destruct (match last_listener data with
                | Some listener => Some (listener_record_of listener)
                | None => listener_dict
                end) as [d |]; cbn [pure_outcome] in *; [| reflexivity].
      unfold responses in Hresp. rewrite map_app in Hresp.
      inversion Hresp as [Htail].
      specialize (IH rest (Some d) (listener_list ++ [d])
                    (snd (serve P w (DescribeListeners [a]))) Htail Hrest).
      destruct (records_of_details (Some d) rest) as [ds |]; cbn [option_map].
      * destruct IH as (ld & IH). exists ld.
        rewrite IH, <- app_assoc. reflexivity.
      * exact IH.
    + destruct details as [| data' rest]; destruct e; discriminate.
Qed.

(** The same for the second loop of [_get_listeners] as a whole. *)
Lemma fetch_listeners_records (arns details : list pyval) (w : world P) :
  responses (calls_of (run P (fetch_listeners arns) w)) = map inl details ->
  forallb detail_listeners_ok details = true ->
  outcome_of (run P (fetch_listeners arns) w) =
    match records_of_details None details with
    | Some ds => Returned (PList ds)
    | None => Raised UnboundLocalError
    end.
Proof.
  intros Hresp Hok. unfold fetch_listeners in *.
  rewrite calls_of_run_bind in Hresp. rewrite outcome_of_run_bind.
  assert (Hloop := fetch_loop_records arns details None [] w).
  destruct (outcome_of (run P (for_each arns fetch_listener (None, [])) w))
    as [vars | e] eqn:Ho.
  - cbn [run calls_of fst snd] in Hresp. rewrite app_nil_r in Hresp.
    specialize (Hloop Hresp Hok).
    destruct (records_of_details None details) as [ds |].
    + destruct Hloop as (d & Hd). inversion Hd; subst. reflexivity.
    + discriminate.
  - specialize (Hloop Hresp Hok).
    destruct (records_of_details None details) as [ds |].
    + destruct Hloop as (d & Hd). discriminate.
    + inversion Hloop. reflexivity.
Qed.

End FetchRecords.

(** C7.  After the provider has enumerated the listeners of a load balancer,
    the calls of the listener fetch are that one enumeration call followed
    by detail calls only: one per enumerated ARN, in order, up to the first
    one that fails, and for every ARN when the fetch returns.  What it
    returns is built from the responses to the detail calls.  First, it does
    not depend on what else the enumeration says: another fetch, whose
    enumeration lists the same ARNs with whatever else around them and whose
    detail calls receive the same responses, ends the same way.  Second, it
    is the list of records of the listeners of the detail responses: when
    the detail calls received the responses [details], all with well-formed
    listeners, the fetch returns [records_of_details] of them, the record of
    the (last) listener of each response in order, and raises
    [UnboundLocalError] where there is none. *)
Theorem get_listeners_two_step :
  forall (P : provider) (w w1 : world P) (lb_arn listeners : pyval),
    serve P w (DescribeListenersOf lb_arn) = (inl listeners, w1) ->
    enumeration_ok listeners = true ->
    exists calls : trace,
      calls_of (run P (_get_listeners lb_arn) w)
      = (DescribeListenersOf lb_arn, inl listeners) :: calls
      /\ prefix (requests calls) (detail_requests (listed_arns listeners))
      /\ (forall recs,
            outcome_of (run P (_get_listeners lb_arn) w) = Returned recs ->
            requests calls = detail_requests (listed_arns listeners))
      /\ (forall (P' : provider) (w' w1' : world P') (lb_arn' listeners' : pyval),
            serve P' w' (DescribeListenersOf lb_arn') = (inl listeners', w1') ->
            enumeration_ok listeners' = true ->
            listed_arns listeners' = listed_arns listeners ->
            responses (tl (calls_of (run P' (_get_listeners lb_arn') w')))
            = responses calls ->
            outcome_of (run P' (_get_listeners lb_arn') w')
            = outcome_of (run P (_get_listeners lb_arn) w))
      /\ (forall details : list pyval,
            responses calls = map inl details ->
            forallb detail_listeners_ok details = true ->
            outcome_of (run P (_get_listeners lb_arn) w) =
              match records_of_details None details with
              | Some ds => Returned (PList ds)
              | None => Raised UnboundLocalError
              end).
Proof.
  intros P w w1 lb_arn listeners Hserve Hok.
  rewrite (run_get_listeners P w lb_arn Hserve Hok).
  cbn [calls_of outcome_of fst snd].
  exists (calls_of (run P (fetch_listeners (listed_arns listeners)) w1)).
  destruct (fetch_listeners_calls P (listed_arns listeners) w1) as [Hpre Hall].
  split; [reflexivity |].
  split; [exact Hpre |].
  split; [intros recs H; apply (Hall recs H) |].
  split.
  - intros P' w' w1' lb_arn' listeners' Hserve' Hok' Harns.
    rewrite (run_get_listeners P' w' lb_arn' Hserve' Hok').
    cbn [calls_of outcome_of fst snd tl].
    rewrite Harns. apply run_determined.
  - intros details Hresp Hdetails.
    apply fetch_listeners_records; assumption.
Qed.

(** The fetch for frontend-prod-elb on the example account: the calls, and
    the records, which are those of the two detail responses (port 443 for
    the HTTPS listener, where the enumeration said 8443). *)
Lemma get_listeners_two_step_witness :
  requests (calls_of (run Example.aws (_get_listeners (PStr "arn:lb/front")) 0%nat))
  = [DescribeListenersOf (PStr "arn:lb/front");
     DescribeListeners [PStr "arn:listener/front/443"];
     DescribeListeners [PStr "arn:listener/front/80"]]
  /\ outcome_of (run Example.aws (_get_listeners (PStr "arn:lb/front")) 0%nat)
     = Returned (PList [listener_record_of Example.https_listener;
                        listener_record_of Example.http_listener]).
Proof.
  destruct (get_listeners_two_step Example.aws 0%nat (PStr "arn:lb/front")
              eq_refl eq_refl) as (calls & Hcalls & _ & Hall & _ & Hrecords).
  assert (Hc : calls
               = tl (calls_of (run Example.aws
                                 (_get_listeners (PStr "arn:lb/front")) 0%nat)))
    by (rewrite Hcalls; reflexivity).
  split.
  - rewrite Hcalls. unfold requests in *; simpl.
    erewrite Hall; [reflexivity | vm_compute; reflexivity].
  - rewrite (Hrecords
               [PDict [("Listeners", PList [Example.https_listener]);
                       Example.metadata];
                PDict [("Listeners", PList [Example.http_listener]);
                       Example.metadata]]);
      [reflexivity | rewrite Hc; reflexivity | reflexivity].
Defined.

(** The enumeration of the example reports port 8443 for the HTTPS listener
    and its detail reports 443: the record has the detail's port. *)
Example frontend_port_from_detail :
  exists https http,
    field "Port" Example.https_listener_listed = Some (PInt 8443)
    /\ outcome_of (run Example.aws (_get_listeners (PStr "arn:lb/front")) 0%nat)
       = Returned (PList [https; http])
    /\ field "port" https = Some (PInt 443).
Proof.
  do 2 eexists.
  split; [reflexivity | split; [vm_compute; reflexivity | reflexivity]].
Qed.

(** C10, as the code has it.  A listener fetch that returns has appended
    one record per enumerated ARN.  In the turn of an ARN whose detail
    response holds several (well-formed) listeners, the record appended is
    the record of the last of them: its ARN, port, protocol, default actions
    and certificate, and nothing of the others.  In the turn of an ARN whose
    detail response holds no listener, the record appended is the one left
    in [listener_dict] by an earlier turn; in the first turn, where nothing
    is left, [listener_dict] is unbound and the fetch raises
    [UnboundLocalError] without appending. *)
Theorem fetch_appends_one_record_per_arn :
  (forall (P : provider) (w w1 : world P) (lb_arn listeners recs : pyval),
      serve P w (DescribeListenersOf lb_arn) = (inl listeners, w1) ->
      enumeration_ok listeners = true ->
      outcome_of (run P (_get_listeners lb_arn) w) = Returned recs ->
      exists items,
        recs = PList items /\ length items = length (listed_arns listeners))
  /\ (forall (P : provider) (w w1 : world P) (arn listener_data : pyval)
             (listener_dict : option pyval) (listener_list : list pyval)
             (others : list pyval) (last : pyval),
      serve P w (DescribeListeners [arn]) = (inl listener_data, w1) ->
      field "Listeners" listener_data = Some (PList (others ++ [last])) ->
      forallb listener_ok (others ++ [last]) = true ->
      run P (fetch_listener (listener_dict, listener_list) arn) w =
        (Returned (Some (listener_record_of last),
                   listener_list ++ [listener_record_of last]),
         [(DescribeListeners [arn], inl listener_data)], w1))
  /\ (forall (P : provider) (w w1 : world P) (arn listener_data : pyval)
             (previous : pyval) (listener_list : list pyval),
      serve P w (DescribeListeners [arn]) = (inl listener_data, w1) ->
      field "Listeners" listener_data = Some (PList []) ->
      run P (fetch_listener (Some previous, listener_list) arn) w =
        (Returned (Some previous, listener_list ++ [previous]),
         [(DescribeListeners [arn], inl listener_data)], w1))
  /\ (forall (P : provider) (w w1 : world P) (arn listener_data : pyval)
             (listener_list : list pyval),
      serve P w (DescribeListeners [arn]) = (inl listener_data, w1) ->
      field "Listeners" listener_data = Some (PList []) ->
      run P (fetch_listener (None, listener_list) arn) w =
        (Raised UnboundLocalError,
         [(DescribeListeners [arn], inl listener_data)], w1)).
Proof.
  repeat split.
  - intros P w w1 lb_arn listeners recs Hserve Hok Hrun.
    rewrite (run_get_listeners P w lb_arn Hserve Hok) in Hrun.
    cbn [outcome_of fst snd] in Hrun.
    destruct (fetch_listeners_calls P (listed_arns listeners) w1) as [_ Hall].
    destruct (Hall recs Hrun) as [_ Hitems]. exact Hitems.
  - intros P w w1 arn listener_data listener_dict listener_list others last
      Hserve Hls Hok.
    rewrite run_fetch_listener, Hserve; simpl.
    unfold record_listeners.
    rewrite (item_field _ _ Hls); simpl.
    unfold py_iter; simpl.
    rewrite (inner_loop_record others last Hok listener_dict); simpl.
    reflexivity.
  - intros P w w1 arn listener_data previous listener_list Hserve Hls.
    rewrite run_fetch_listener, Hserve; simpl.
    unfold record_listeners.
    rewrite (item_field _ _ Hls); simpl.
    reflexivity.
  - intros P w w1 arn listener_data listener_list Hserve Hls.
    rewrite run_fetch_listener, Hserve; simpl.
    unfold record_listeners.
    rewrite (item_field _ _ Hls); simpl.
    reflexivity.
Qed.

(** The provider whose detail for a holds two listeners, HTTP then HTTPS,
    and whose detail for b holds none.  The fetch for a then b returns two
    records; the turn of a appends the record of the HTTPS listener, the
    last one; the turn of b appends that record again; and a first turn for
    b raises. *)
Lemma fetch_appends_one_record_per_arn_witness :
  (exists items,
      outcome_of (run Example.odd (_get_listeners (PStr "arn:lb/x")) 0%nat)
      = Returned (PList items)
      /\ length items = length (listed_arns Example.enumeration_a_b))
  /\ run Example.odd (fetch_listener (None, []) (PStr "arn:listener/a")) 1%nat =
       (Returned (Some Example.https_record, [] ++ [Example.https_record]),
        [(DescribeListeners [PStr "arn:listener/a"], inl Example.detail_of_a)],
        2%nat)
  /\ run Example.odd
       (fetch_listener (Some Example.https_record, [Example.https_record])
          (PStr "arn:listener/b")) 2%nat =
       (Returned (Some Example.https_record,
                  [Example.https_record] ++ [Example.https_record]),
        [(DescribeListeners [PStr "arn:listener/b"], inl Example.detail_of_b)],
        3%nat)
  /\ run Example.odd (fetch_listener (None, []) (PStr "arn:listener/b")) 1%nat =
       (Raised UnboundLocalError,
        [(DescribeListeners [PStr "arn:listener/b"], inl Example.detail_of_b)],
        2%nat).
Proof.
  destruct fetch_appends_one_record_per_arn
    as (Hcount & Hlast & Hleft & Hunbound).
  split; [| split; [| split]].
  - destruct (Hcount Example.odd 0%nat 1%nat (PStr "arn:lb/x")
                Example.enumeration_a_b
                (PList [Example.https_record; Example.https_record])
                eq_refl eq_refl eq_refl) as (items & Hitems & Hlen).
    exists items. split; [rewrite <- Hitems; reflexivity | exact Hlen].
  - exact (Hlast Example.odd 1%nat 2%nat (PStr "arn:listener/a")
             Example.detail_of_a None [] [Example.http_listener]
             Example.https_listener eq_refl eq_refl eq_refl).
  - exact (Hleft Example.odd 2%nat 3%nat (PStr "arn:listener/b")
             Example.detail_of_b Example.https_record [Example.https_record]
             eq_refl eq_refl).
  - exact (Hunbound Example.odd 1%nat 2%nat (PStr "arn:listener/b")
             Example.detail_of_b [] eq_refl eq_refl).
Defined.

(** C10 as the claim states it fails where the first enumerated ARN is one
    whose detail holds no listener: two ARNs are enumerated, there is no
    record of an earlier turn to append for the first, and the fetch ends in
    [UnboundLocalError] after its detail call with no record appended for
    either ARN. *)
Lemma first_arn_without_listeners_appends_nothing :
  listed_arns Example.enumeration_b_a
  = [PStr "arn:listener/b"; PStr "arn:listener/a"]
  /\ listeners_of Example.detail_of_b = []
  /\ run Example.odd (_get_listeners (PStr "arn:lb/rev")) 0%nat =
       (Raised UnboundLocalError,
        [(DescribeListenersOf (PStr "arn:lb/rev"), inl Example.enumeration_b_a);
         (DescribeListeners [PStr "arn:listener/b"], inl Example.detail_of_b)],
        2%nat).
Proof. repeat split. Qed.

(** When the first enumerated ARN is the one whose detail holds no listener,
    there is no earlier record: [listener_dict] is unbound at the append. *)
Example fetch_first_detail_empty :
  outcome_of (run Example.odd (_get_listeners (PStr "arn:lb/rev")) 0%nat)
  = Raised UnboundLocalError.
Proof. vm_compute. reflexivity. Qed.

(* ================================================================= *)
(** ** The shape of the output *)

Lemma run_returned_pure (P : provider) (A : Type) (p : prog A)
  (w w' : world P) (a : A) (t : trace) :
  pure p -> run P p w = (Returned a, t, w') -> p = Ret a /\ t = [] /\ w' = w.
Proof.
  intros Hp. rewrite (run_pure P p w Hp).
  destruct p; simpl; intros H; inversion H; auto.
Qed.

Lemma for_each_run_inv (P : provider) (S : Type)
  (body : S -> pyval -> prog S) (I : S -> Prop) :
  (forall acc x (w w' : world P) acc' t,
      I acc -> run P (body acc x) w = (Returned acc', t, w') -> I acc') ->
  forall xs acc (w w' : world P) r t,
    I acc -> run P (for_each xs body acc) w = (Returned r, t, w') -> I r.
Proof.
  intros Hb. induction xs as [| x xs IH]; simpl; intros acc w w' r t Hacc H.
  - inversion H; subst; assumption.
  - apply run_bind_returned in H as (acc' & t1 & w1 & t2 & H1 & H2 & _).
    eauto.
Qed.

Lemma py_map_run_Forall (P : provider) (f : pyval -> prog pyval)
  (Q : pyval -> Prop) :
  (forall x (w w' : world P) y t,
      run P (f x) w = (Returned y, t, w') -> Q y) ->
  forall xs (w w' : world P) ys t,
    run P (py_map f xs) w = (Returned ys, t, w') -> Forall Q ys.
Proof.
  intros Hf. induction xs as [| x xs IH]; simpl; intros w w' ys t H.
  - inversion H; constructor.
  - apply run_bind_returned in H as (y & t1 & w1 & t2 & H1 & H2 & _).
    apply run_bind_returned in H2 as (ys' & t3 & w3 & t4 & H3 & H4 & _).
    inversion H4; subst. constructor; eauto.
Qed.

Lemma pure_get_zone_info (zones : pyval) : pure (_get_zone_info zones).
Proof.
  unfold _get_zone_info.
  apply pure_bind; [apply pure_py_iter | intros zs].
  apply pure_bind; [| intros l; exact I].
  apply pure_for_each. intros acc zone.
  apply pure_bind; [apply pure_item | intros s].
  apply pure_bind; [apply pure_item | intros n; exact I].
Qed.

(** What [_get_zone_info] returns is a list of zone records. *)
Lemma get_zone_info_record (zones v : pyval) :
  _get_zone_info zones = Ret v ->
  exists zs, v = PList zs /\ Forall zone_record zs.
Proof.
  unfold _get_zone_info. intros H.
  apply bind_ret_inv in H as (zs & _ & H).
  apply bind_ret_inv in H as (zone_list & Hloop & H).
  inversion H; subst. exists zone_list. split; [reflexivity |].
  revert Hloop. apply for_each_ret_inv; [| constructor].
  intros acc zone acc' Hacc Hstep.
  apply bind_ret_inv in Hstep as (s & _ & Hstep).
  apply bind_ret_inv in Hstep as (n & _ & Hstep).
  inversion Hstep; subst.
  apply Forall_app. split; [assumption |].
  constructor; [| constructor]. exists s, n. reflexivity.
Qed.

(** What a turn of the outer loop leaves in the loop's variables. *)
Lemma record_listeners_records (vars vars' : option pyval * list pyval)
  (listener_data : pyval) :
  (forall d, fst vars = Some d -> listener_record d) ->
  Forall listener_record (snd vars) ->
  record_listeners vars listener_data = Ret vars' ->
  (forall d, fst vars' = Some d -> listener_record d)
  /\ Forall listener_record (snd vars').
Proof.
  destruct vars as [listener_dict listener_list]; simpl.
  intros Hd Hl H. unfold record_listeners in H.
  apply bind_ret_inv in H as (ls & _ & H).
  apply bind_ret_inv in H as (xs & _ & H).
  apply bind_ret_inv in H as (listener_dict' & Hloop & H).
  assert (Hd' : forall d, listener_dict' = Some d -> listener_record d).
  { refine (@for_each_ret_inv _ _
              (fun ld => forall d, ld = Some d -> listener_record d)
              _ _ _ _ Hd Hloop).
    intros acc x acc' _ Hstep d ->.
    apply bind_ret_inv in Hstep as (d' & Hbuild & Hstep).
    inversion Hstep; subst. eapply build_listener_dict_record, Hbuild. }
  destruct listener_dict' as [d |]; [| discriminate].
  inversion H; subst; simpl. split; [exact Hd' |].
  apply Forall_app. split; [assumption |].
  constructor; [apply Hd'; reflexivity | constructor].
Qed.

(** What [_get_listeners] returns is a list of listener records. *)
Lemma get_listeners_records (P : provider) (w w' : world P)
  (lb_arn v : pyval) (t : trace) :
  run P (_get_listeners lb_arn) w = (Returned v, t, w') ->
  exists items, v = PList items /\ Forall listener_record items.
Proof.
  unfold _get_listeners, fetch_listeners. intros H.
  apply run_bind_returned in H as (listeners & t1 & w1 & t2 & _ & H & _).
  apply run_bind_returned in H as (arns & t3 & w3 & t4 & _ & H & _).
  apply run_bind_returned in H as (vars & t5 & w5 & t6 & Hloop & H & _).
  inversion H; subst. exists (snd vars). split; [reflexivity |].
  cut ((forall d, fst vars = Some d -> listener_record d)
       /\ Forall listener_record (snd vars)); [tauto |].
  revert Hloop.
  apply for_each_run_inv
    with (I := fun vars => (forall d, fst vars = Some d -> listener_record d)
                           /\ Forall listener_record (snd vars)).
  - intros acc arn u u' acc' tr [Hd Hl] Hstep.
    rewrite run_fetch_listener in Hstep.
    destruct (fst (serve P u (DescribeListeners [arn]))) as [data | e].
    + destruct (record_listeners acc data) as [r | e | r k] eqn:Hturn;
        simpl in Hstep; inversion Hstep; subst.
      eapply record_listeners_records; eassumption.
    + destruct e; inversion Hstep.
  - split; [discriminate | constructor].
Qed.

(** What [_get_elb_info] returns is a load balancer record. *)
Lemma get_elb_info_record (P : provider) (w w' : world P) (elb v : pyval)
  (t : trace) :
  run P (_get_elb_info elb) w = (Returned v, t, w') -> elb_record v.
Proof.
  unfold _get_elb_info. intros H.
  apply run_bind_returned in H as (arn & ? & ? & ? & _ & H & _).
  apply run_bind_returned in H as (zones & ? & w1 & ? & Hzones & H & _).
  apply run_bind_returned in H as (name & ? & ? & ? & _ & H & _).
  apply run_bind_returned in H as (dns & ? & ? & ? & _ & H & _).
  apply run_bind_returned in H as (sgs & ? & ? & ? & _ & H & _).
  apply run_bind_returned in H as (state & ? & ? & ? & _ & H & _).
  apply run_bind_returned in H as (listeners & ? & ? & ? & Hls & H & _).
  inversion H; subst.
  apply run_bind_returned in Hzones as (azs & ? & ? & ? & _ & Hzones & _).
  apply run_returned_pure in Hzones as (Hzones & _ & _);
    [| apply pure_get_zone_info].
  apply get_zone_info_record in Hzones as (zs & -> & Hzs).
  apply run_bind_returned in Hls as (arn' & ? & ? & ? & _ & Hls & _).
  apply get_listeners_records in Hls as (items & -> & Hitems).
  exists arn, zs, name, dns, sgs, state, items. auto.
Qed.

(** What [list_elbs] returns is a list of load balancer records. *)
Lemma list_elbs_records (P : provider) (w w' : world P)
  (names : list string) (v : pyval) (t : trace) :
  run P (list_elbs names) w = (Returned v, t, w') ->
  exists infos, v = PList infos /\ Forall elb_record infos.
Proof.
  unfold list_elbs. intros H.
  apply run_bind_returned in H as (all_elbs & ? & ? & ? & _ & H & _).
  apply run_bind_returned in H as (elb_array & ? & ? & ? & _ & H & _).
  apply run_bind_returned in H as (xs & ? & ? & ? & _ & H & _).
  apply run_bind_returned in H as (infos & ? & ? & ? & Hmap & H & _).
  inversion H; subst. exists infos. split; [reflexivity |].
  revert Hmap. apply py_map_run_Forall.
  intros elb u u' y tr. apply get_elb_info_record.
Qed.

(** C5, as the code has it.  Whenever [main] hands a result to [exit_json],
    the result is [{changed: False, elbs: [...]}], every element of [elbs]
    has exactly the keys load_balancer_arn, zones, name, dns_name,
    security_groups, state and listeners, every listener the keys
    listener_arn, port, protocol and default_actions, with certificate_arn
    after them or not, and every zone the keys subnetid and zonename. *)
Theorem main_output_shape :
  forall (P : provider) (w w' : world P) (env : module_env) (result : pyval)
         (t : trace),
    run P (main env) w = (Returned result, t, w') ->
    exists elbs,
      result = PDict [("changed", PBool false); ("elbs", PList elbs)]
      /\ Forall elb_record elbs.
Proof.
  intros P w w' env result t H. unfold main in H.
  apply run_bind_returned in H as (? & ? & ? & ? & _ & H & _).
  apply run_bind_returned in H as (? & ? & ? & ? & _ & H & _).
  apply run_bind_returned in H as (? & ? & ? & ? & _ & H & _).
  apply run_bind_returned in H as (elbs & ? & ? & ? & Hlist & H & _).
  inversion H; subst.
  apply list_elbs_records in Hlist as (infos & -> & Hinfos).
  exists infos. auto.
Qed.

(** The output of [main] for the filter frontend-prod-elb. *)
Lemma main_output_shape_witness :
  exists elbs,
    fst (fst (run Example.aws (main (Example.env ["frontend-prod-elb"])) 0%nat))
    = Returned (PDict [("changed", PBool false); ("elbs", PList elbs)])
    /\ Forall elb_record elbs.
Proof.
  destruct (run Example.aws (main (Example.env ["frontend-prod-elb"])) 0%nat)
    as [[o t] w'] eqn:Hrun.
  assert (Ho : exists result, o = Returned result).
  { apply (f_equal (fun r => fst (fst r))) in Hrun.
    vm_compute in Hrun. subst o. eexists; reflexivity. }
  destruct Ho as [result ->].
  destruct (main_output_shape Example.aws 0%nat
              (Example.env ["frontend-prod-elb"]) Hrun) as (elbs & -> & Hrec).
  exists elbs. split; [reflexivity | exact Hrec].
Defined.

(** C5 as the spec states it fails on the keys of a zone: the zones of the
    example's record are keyed subnetid and zonename, and have no key
    subnet_id or zone_name. *)
Lemma zone_keys_are_not_snake_case :
  exists result elb zone zones,
    outcome_of (run Example.aws (main (Example.env ["frontend-prod-elb"])) 0%nat)
    = Returned result
    /\ field "elbs" result = Some (PList [elb])
    /\ field "zones" elb = Some (PList (zone :: zones))
    /\ zone = PDict [("subnetid", PStr "subnet-1"); ("zonename", PStr "us-east-1a")]
    /\ field "subnet_id" zone = None
    /\ field "zone_name" zone = None.
Proof.
  do 4 eexists.
  split; [vm_compute; reflexivity |].
  split; [reflexivity |].
  split; [reflexivity |].
  split; [reflexivity |].
  split; reflexivity.
Qed.

(* ================================================================= *)
(** ** The name filter *)

Lemma py_in_in_filter (names : list string) (elb : pyval) (n : string) :
  field "LoadBalancerName" elb = Some (PStr n) ->
  py_in (PStr n) names = in_filter names elb.
Proof.
  intros Hn. unfold in_filter, name_of, py_in. rewrite Hn.
  destruct (in_dec string_dec n names) as [Hin | Hout].
  - apply existsb_exists. exists n. split; [assumption | apply String.eqb_refl].
  - destruct (existsb (String.eqb n) names) eqn:He; [| reflexivity].
    apply existsb_exists in He as (m & Hm & Heq).
    apply String.eqb_eq in Heq. subst m. contradiction.
Qed.

Lemma load_balancer_ok_name (elb : pyval) :
  load_balancer_ok elb = true ->
  exists n, field "LoadBalancerName" elb = Some (PStr n).
Proof.
  intros H. destruct (get_elb_info_ok elb H)
    as (? & ? & n & ? & ? & ? & _ & Hn & _).
  exists n. exact Hn.
Qed.

Lemma select_loop_ok (names : list string) (lbs : list pyval) :
  forallb load_balancer_ok lbs = true ->
  forall acc,
    for_each lbs (fun elb_array existing_lb =>
      n <- item existing_lb "LoadBalancerName" ;;
      if py_in n names then Ret (elb_array ++ [existing_lb]) else Ret elb_array)
      acc
    = Ret (acc ++ filter (in_filter names) lbs).
Proof.
  induction lbs as [| lb lbs IH]; simpl; intros Hok acc.
  - rewrite app_nil_r. reflexivity.
  - apply andb_prop in Hok as [Hlb Hok].
    destruct (load_balancer_ok_name lb Hlb) as (n & Hn).
    rewrite (item_field _ _ Hn); simpl.
    rewrite (py_in_in_filter names lb Hn).
    destruct (in_filter names lb); simpl; rewrite IH by assumption.
    + rewrite <- app_assoc. reflexivity.
    + reflexivity.
Qed.

(** The filter loop keeps the load balancers whose name is in the filter
    set, in the order of the response. *)
Lemma select_named_ok (names : list string) (all_elbs : pyval)
  (lbs : list pyval) :
  field "LoadBalancers" all_elbs = Some (PList lbs) ->
  forallb load_balancer_ok lbs = true ->
  select_named names all_elbs = Ret (filter (in_filter names) lbs).
Proof.
  intros Hlbs Hok. unfold select_named.
  rewrite (item_field _ _ Hlbs); simpl.
  unfold py_iter; simpl.
  apply (select_loop_ok names lbs Hok []).
Qed.

(** A turn of the outer loop on a well-formed detail response completes. *)
Lemma record_listeners_ok (vars : option pyval * list pyval)
  (listener_data : pyval) :
  detail_ok listener_data = true ->
  exists d, record_listeners vars listener_data
            = Ret (Some d, snd vars ++ [d]).
Proof.
  unfold detail_ok. destruct vars as [listener_dict listener_list].
  destruct (field "Listeners" listener_data) as [[| | | | [| l ls] |] |] eqn:Hls;
    try discriminate.
  intros Hok.
  destruct (exists_last (l := l :: ls)) as (front & last & Hsplit);
    [discriminate |].
  rewrite Hsplit in Hok, Hls.
  destruct (inner_loop_last front last Hok listener_dict) as (d & _ & Hloop).
  exists d. unfold record_listeners.
  rewrite (item_field _ _ Hls); simpl.
  unfold py_iter; simpl.
  rewrite Hloop; simpl. reflexivity.
Qed.

Section Served.

Variable P : provider.
Hypothesis served : serves_listeners P.

Lemma fetch_loop_returns (arns : list pyval) :
  (forall (a : pyval) (w' : world P),
      In a arns ->
      exists listener_data,
        fst (serve P w' (DescribeListeners [a])) = inl listener_data /\
        detail_ok listener_data = true) ->
  forall (vars : option pyval * list pyval) (w : world P),
    exists vars',
      outcome_of (run P (for_each arns fetch_listener vars) w) = Returned vars'.
Proof.
  induction arns as [| a arns IH]; intros Hserve vars w.
  - exists vars. reflexivity.
  - cbn [for_each]. rewrite run_bind, run_fetch_listener.
    destruct (Hserve a w (or_introl eq_refl)) as (data & -> & Hok).
    destruct (record_listeners_ok vars data Hok) as (d & ->); simpl.
    destruct (IH (fun a' w' H => Hserve a' w' (or_intror H))
                (Some d, snd vars ++ [d])
                (snd (serve P w (DescribeListeners [a])))) as (vars' & Hrun).
    returned_run Hrun as w2.
    exists vars'. reflexivity.
Qed.

(** With a provider that serves listeners, the listener fetch returns. *)
Lemma get_listeners_returns (w : world P) (lb_arn : pyval) :
  exists items,
    outcome_of (run P (_get_listeners lb_arn) w) = Returned (PList items).
Proof.
  destruct (served w lb_arn) as (listeners & Hserve & Hok & Hdetails).
  destruct (serve P w (DescribeListenersOf lb_arn)) as [resp w1] eqn:Hs.
  simpl in Hserve. subst resp.
  rewrite (run_get_listeners P w lb_arn Hs Hok).
  cbn [outcome_of fst snd].
  rewrite run_fetch_listeners.
  destruct (fetch_loop_returns (listed_arns listeners) Hdetails (None, []) w1)
    as (vars & Hrun).
  returned_run Hrun as w2.
  exists (snd vars). reflexivity.
Qed.

(** With a provider that serves listeners, the record of a well-formed load
    balancer is returned, and it describes that load balancer. *)
Lemma get_elb_info_returns (elb : pyval) (w : world P) :
  load_balancer_ok elb = true ->
  exists info,
    outcome_of (run P (_get_elb_info elb) w) = Returned info
    /\ describes elb info.
Proof.
  intros Hok.
  destruct (get_elb_info_ok elb Hok)
    as (arn & zones & name & dns & sgs & state & Harn & Hname & Hdns & Hsgs
        & _ & ->).
  rewrite run_bind.
  destruct (get_listeners_returns w arn) as (items & Hrun).
  returned_run Hrun as w1.
  simpl. eexists. split; [reflexivity |].
  unfold describes. rewrite Harn, Hname, Hdns, Hsgs.
  repeat split; reflexivity.
Qed.

Lemma py_map_get_elb_info_returns :
  forall (elbs : list pyval) (w : world P),
    forallb load_balancer_ok elbs = true ->
    exists infos,
      outcome_of (run P (py_map _get_elb_info elbs) w) = Returned infos
      /\ Forall2 describes elbs infos.
Proof.
  induction elbs as [| elb elbs IH]; intros w Hok.
  - exists []. split; [reflexivity | constructor].
  - simpl in Hok. apply andb_prop in Hok as [Helb Hok].
    cbn [py_map]. rewrite run_bind.
    destruct (get_elb_info_returns elb w Helb) as (info & Hrun & Hdesc).
    returned_run Hrun as w1.
    rewrite run_bind.
    destruct (IH w1 Hok) as (infos & Hrun & Hall).
    returned_run Hrun as w2.
    simpl. exists (info :: infos). split; [reflexivity |].
    constructor; assumption.
Qed.

End Served.

Lemma forallb_filter (A : Type) (ok keep : A -> bool) (l : list A) :
  forallb ok l = true -> forallb ok (filter keep l) = true.
Proof.
  induction l as [| x l IH]; simpl; [reflexivity |].
  intros H. apply andb_prop in H as [Hx Hl].
  destruct (keep x); simpl; [rewrite Hx |]; auto.
Qed.


Lemma aws_serves_listeners : serves_listeners Example.aws.
Proof.
  intros w lb_arn. simpl.
  destruct (Example.pyval_is_str lb_arn "arn:lb/front").
  - eexists. split; [reflexivity |]. split; [reflexivity |].
    intros a w' [<- | [<- | []]]; eexists; split; reflexivity.
  - eexists. split; [reflexivity |]. split; [reflexivity |].
    intros a w' [].
Qed.


(** The spec's example: the filter frontend-prod-elb on the account with
    frontend-prod-elb and backend-prod-elb gives the one record of
    frontend-prod-elb, with its two listeners. *)
Example list_elbs_frontend_only :
  exists info first second,
    outcome_of (run Example.aws (list_elbs ["frontend-prod-elb"]) 0%nat)
    = Returned (PList [info])
    /\ field "name" info = Some (PStr "frontend-prod-elb")
    /\ field "listeners" info = Some (PList [first; second]).
Proof.
  do 3 eexists.
  split; [vm_compute; reflexivity | split; reflexivity].
Qed.

(** A filter name that differs in case, or that is a glob, matches nothing:
    the result is the empty list. *)
Example list_elbs_no_match :
  outcome_of (run Example.aws (list_elbs ["Frontend-prod-elb"; "*-prod-elb"]) 0%nat)
  = Returned (PList []).
Proof. vm_compute. reflexivity. Qed.

(* ================================================================= *)
(** * Further properties of the module *)

(** ** Definitions *)

(** What a guarded provider call makes of an exception of the provider: a
    [BotoServerError] leaves through [fail_json] with its code and message,
    any other exception goes on as it is. *)
Definition surfaced (e : exn) : exn :=
  match e with
  | BotoServerError error_code error_message =>
      FailJson (error_code ++ ": " ++ error_message)
  | _ => e
  end.

(** The requests that enumerate the listeners of a load balancer. *)
Definition is_enumeration (r : request) : bool :=
  match r with
  | DescribeListenersOf _ => true
  | _ => false
  end.

(** The ARN of a load balancer of the provider's response. *)
Definition arn_of (elb : pyval) : pyval :=
  match field "LoadBalancerArn" elb with
  | Some a => a
  | None => PNone
  end.

(** The enumeration request [_get_elb_info] makes for a load balancer. *)
Definition enumeration_of (elb : pyval) : request :=
  DescribeListenersOf (arn_of elb).

(** [KeyError] and [TypeError], the exceptions of a subscript. *)
Definition lookup_error (e : exn) : Prop := e = KeyError \/ e = TypeError.

(** The keys [_get_elb_info] reads from a load balancer. *)
Definition has_record_keys (elb : pyval) : bool :=
  has_key "LoadBalancerArn" elb
  && has_key "AvailabilityZones" elb
  && has_key "LoadBalancerName" elb
  && has_key "DNSName" elb
  && has_key "SecurityGroups" elb
  && match field "State" elb with
     | Some state => has_key "Code" state
     | None => false
     end.

(** The four fields the dict literal of a listener reads. *)
Definition has_listener_keys (listener : pyval) : bool :=
  has_key "ListenerArn" listener
  && has_key "Port" listener
  && has_key "Protocol" listener
  && has_key "DefaultActions" listener.

(** The two listener requests. *)
Definition is_listener_request (r : request) : bool :=
  match r with
  | DescribeListenersOf _ | DescribeListeners _ => true
  | _ => false
  end.

(** Providers of the example account that fail in places. *)
Module Faulty.

(** The detail of the HTTP listener of frontend-prod-elb cannot be read. *)
Definition lost_answer (r : request) : response :=
  match r with
  | DescribeListeners [arn] =>
      if Example.pyval_is_str arn "arn:listener/front/80"
      then inr (BotoServerError "ListenerNotFound" "One or more listeners not found")
      else Example.answer r
  | _ => Example.answer r
  end.

Definition lost : provider :=
  {| world := nat; serve := fun n r => (lost_answer r, S n) |}.

(** The listeners of backend-prod-elb cannot be enumerated. *)
Definition throttled_answer (r : request) : response :=
  match r with
  | DescribeListenersOf arn =>
      if Example.pyval_is_str arn "arn:lb/back"
      then inr (BotoServerError "Throttling" "Rate exceeded")
      else Example.answer r
  | _ => Example.answer r
  end.

Definition throttled : provider :=
  {| world := nat; serve := fun n r => (throttled_answer r, S n) |}.

(** No client can be constructed. *)
Definition offline : provider :=
  {| world := nat;
     serve := fun n r =>
       (match r with
        | Boto3Conn _ _ => inr (ClientError "Could not connect to the endpoint URL")
        | _ => Example.answer r
        end, S n) |}.

(** The second client cannot be constructed. *)
Definition half_offline : provider :=
  {| world := nat;
     serve := fun n r =>
       (match r with
        | Boto3Conn resource _ =>
            if String.eqb resource "elbv2"
            then inr (ClientError "Unknown service: elbv2")
            else inl PNone
        | _ => Example.answer r
        end, S n) |}.

(** Responses with entries that lack a field: the second enumerated listener
    has no ARN, and the second listed load balancer has no name. *)
Definition garbled_answer (r : request) : response :=
  match r with
  | DescribeLoadBalancers =>
      inl (PDict [("LoadBalancers",
                    PList [Example.frontend;
                           PDict [("LoadBalancerArn", PStr "arn:lb/anon");
                                  ("DNSName", PStr "anon.example.com")]]);
                  Example.metadata])
  | DescribeListenersOf _ =>
      inl (PDict [("Listeners",
                    PList [Example.https_listener_listed;
                           PDict [("Port", PInt 80); ("Protocol", PStr "HTTP")]]);
                  Example.metadata])
  | _ => Example.answer r
  end.

Definition garbled : provider :=
  {| world := nat; serve := fun n r => (garbled_answer r, S n) |}.

(** The zones of the example's load balancers, and a list whose second zone
    has no ZoneName. *)
Definition two_zones : list pyval :=
  [PDict [("ZoneName", PStr "us-east-1a"); ("SubnetId", PStr "subnet-1")];
   PDict [("ZoneName", PStr "us-east-1b"); ("SubnetId", PStr "subnet-2")]].

Definition zones_one_unnamed : list pyval :=
  [PDict [("ZoneName", PStr "us-east-1a"); ("SubnetId", PStr "subnet-1")];
   PDict [("SubnetId", PStr "subnet-2")]].

(** A load balancer entry without DNSName. *)
Definition no_dns : pyval :=
  PDict [("LoadBalancerArn", PStr "arn:lb/front");
         ("LoadBalancerName", PStr "frontend-prod-elb");
         ("AvailabilityZones", PList []);
         ("SecurityGroups", PList []);
         ("State", PDict [("Code", PStr "active")])].

End Faulty.

(* ================================================================= *)
(** ** Failures of the listener calls *)

Lemma run_guarded_call_surfaced (P : provider) (r : request) (w : world P) :
  run P (guarded_call r) w =
    (match fst (serve P w r) with
     | inl v => Returned v
     | inr e => Raised (surfaced e)
     end, [(r, fst (serve P w r))], snd (serve P w r)).
Proof.
  rewrite run_guarded_call.
  destruct (fst (serve P w r)) as [v | e]; [reflexivity |].
  destruct e; reflexivity.
Qed.

(** A loop over [xs ++ ys] is the loop over [xs] followed, when that
    completes, by the loop over [ys]. *)
Lemma run_for_each_app (P : provider) (S : Type)
  (body : S -> pyval -> prog S) (ys : list pyval) :
  forall (xs : list pyval) (acc : S) (w : world P),
    run P (for_each (xs ++ ys) body acc) w =
      match run P (for_each xs body acc) w with
      | (Returned acc', t1, w1) =>
          let '(o, t2, w2) := run P (for_each ys body acc') w1 in
          (o, t1 ++ t2, w2)
      | (Raised e, t1, w1) => (Raised e, t1, w1)
      end.
Proof.
  induction xs as [| x xs IH]; intros acc w.
  - simpl. destruct (run P (for_each ys body acc) w) as [[o t] w2]. reflexivity.
  - cbn [app for_each]. rewrite !run_bind.
    destruct (run P (body acc x) w) as [[[acc1 | e] t0] w0]; [| reflexivity].
    rewrite IH.
    destruct (run P (for_each xs body acc1) w0) as [[[acc2 | e] t1] w1];
      [| reflexivity].
    destruct (run P (for_each ys body acc2) w1) as [[o t2] w2].
    rewrite app_assoc. reflexivity.
Qed.

(** X1.  When the call that enumerates the listeners of a load balancer
    raises, the listener fetch ends there, after that one call, with the
    exception as a guarded call surfaces it; and so does the building of the
    record of a well-formed load balancer with that ARN: no record is
    returned for it. *)
Theorem get_listeners_enumeration_failure :
  forall (P : provider) (w w1 : world P) (lb_arn : pyval) (e : exn),
    serve P w (DescribeListenersOf lb_arn) = (inr e, w1) ->
    run P (_get_listeners lb_arn) w =
      (Raised (surfaced e), [(DescribeListenersOf lb_arn, inr e)], w1)
    /\ forall elb : pyval,
        load_balancer_ok elb = true ->
        field "LoadBalancerArn" elb = Some lb_arn ->
        run P (_get_elb_info elb) w =
          (Raised (surfaced e), [(DescribeListenersOf lb_arn, inr e)], w1).
Proof.
  intros P w w1 lb_arn e Hserve.
  assert (Hfetch : run P (_get_listeners lb_arn) w =
            (Raised (surfaced e), [(DescribeListenersOf lb_arn, inr e)], w1)).
  { unfold _get_listeners.
    rewrite run_bind, run_guarded_call_surfaced, Hserve. reflexivity. }
  split; [exact Hfetch |].
  intros elb Hok Harn.
  destruct (get_elb_info_ok elb Hok)
    as (arn & zones & name & dns & sgs & state & Harn' & _ & _ & _ & _ & ->).
  rewrite Harn in Harn'. inversion Harn'; subst arn.
  rewrite run_bind, Hfetch. reflexivity.
Qed.

(** backend-prod-elb on the throttled account. *)
Lemma get_listeners_enumeration_failure_witness :
  run Faulty.throttled (_get_elb_info Example.backend) 0%nat =
    (Raised (FailJson "Throttling: Rate exceeded"),
     [(DescribeListenersOf (PStr "arn:lb/back"),
       inr (BotoServerError "Throttling" "Rate exceeded"))], 1%nat).
Proof.
  exact (proj2 (get_listeners_enumeration_failure Faulty.throttled 0%nat
                  (PStr "arn:lb/back") eq_refl)
           Example.backend eq_refl eq_refl).
Defined.

(** X2.  When, after a successful enumeration, the detail call for one of
    the enumerated ARNs raises, the listener fetch ends there: the calls are
    the enumeration, the calls for the ARNs before it, and the failed call;
    the ARNs after it are not asked for, and the records built so far are
    not returned. *)
Theorem get_listeners_detail_failure :
  forall (P : provider) (w w0 w1 w2 : world P) (lb_arn listeners : pyval)
         (before after : list pyval) (arn recs : pyval) (t1 : trace) (e : exn),
    serve P w (DescribeListenersOf lb_arn) = (inl listeners, w0) ->
    enumeration_ok listeners = true ->
    listed_arns listeners = before ++ arn :: after ->
    run P (fetch_listeners before) w0 = (Returned recs, t1, w1) ->
    serve P w1 (DescribeListeners [arn]) = (inr e, w2) ->
    run P (_get_listeners lb_arn) w =
      (Raised (surfaced e),
       (DescribeListenersOf lb_arn, inl listeners)
         :: t1 ++ [(DescribeListeners [arn], inr e)],
       w2).
Proof.
  intros P w w0 w1 w2 lb_arn listeners before after arn recs t1 e
    Hserve Hok Harns Hbefore Hfail.
  rewrite (run_get_listeners P w lb_arn Hserve Hok), Harns.
  rewrite run_fetch_listeners in Hbefore |- *.
  rewrite run_for_each_app.
  destruct (run P (for_each before fetch_listener (None, [])) w0)
    as [[[vars | e0] t] w'] eqn:Hloop; [| discriminate].
  inversion Hbefore; subst.
  cbn [for_each]. rewrite run_bind, run_fetch_listener, Hfail.
  cbn [fst snd].
  destruct e; reflexivity.
Qed.

(** frontend-prod-elb on the account whose HTTP listener is lost: the HTTPS
    listener is fetched, then the fetch fails. *)
Lemma get_listeners_detail_failure_witness :
  run Faulty.lost (_get_listeners (PStr "arn:lb/front")) 0%nat =
    (Raised (FailJson "ListenerNotFound: One or more listeners not found"),
     (DescribeListenersOf (PStr "arn:lb/front"),
      Faulty.lost_answer (DescribeListenersOf (PStr "arn:lb/front")))
       :: [(DescribeListeners [PStr "arn:listener/front/443"],
            Faulty.lost_answer (DescribeListeners [PStr "arn:listener/front/443"]))]
       ++ [(DescribeListeners [PStr "arn:listener/front/80"],
            inr (BotoServerError "ListenerNotFound" "One or more listeners not found"))],
     3%nat).
Proof.
  exact (@get_listeners_detail_failure Faulty.lost 0%nat 1%nat 2%nat 3%nat
           (PStr "arn:lb/front") _
           [PStr "arn:listener/front/443"] [] (PStr "arn:listener/front/80")
           (PList [Example.https_record]) _ _
           eq_refl eq_refl eq_refl eq_refl eq_refl).
Defined.

(* ================================================================= *)
(** ** Entries that lack a field *)

Lemma item_throw_lookup (v : pyval) (k : string) (e : exn) :
  item v k = Throw e -> lookup_error e.
Proof.
  unfold item, lookup_error. destruct v; simpl; intros H;
    try (inversion H; auto; fail).
  destruct (dict_get k entries); inversion H; auto.
Qed.

Lemma item_missing (v : pyval) (k : string) :
  has_key k v = false -> exists e, item v k = Throw e /\ lookup_error e.
Proof.
  unfold has_key. intros H.
  destruct (item_cases v k) as [(x & _ & Hx) | (e & He & _)].
  - rewrite Hx in H. discriminate.
  - exists e. split; [exact He | eapply item_throw_lookup, He].
Qed.

Lemma bind_throw_inv (A B : Type) (m : prog A) (f : A -> prog B) (e : exn) :
  bind m f = Throw e -> m = Throw e \/ exists a, m = Ret a /\ f a = Throw e.
Proof.
  destruct m; simpl; intros H;
    [right; eauto | left; inversion H; reflexivity | discriminate].
Qed.

(** What a loop raises, one of its turns raised. *)
Lemma for_each_throw_inv (S : Type) (body : S -> pyval -> prog S)
  (Q : exn -> Prop) :
  (forall acc x e, body acc x = Throw e -> Q e) ->
  forall xs acc e, for_each xs body acc = Throw e -> Q e.
Proof.
  intros Hb. induction xs as [| x xs IH]; simpl; intros acc e H.
  - discriminate.
  - apply bind_throw_inv in H as [H | (acc' & _ & H)]; eauto.
Qed.

(** A loop of turns that make no call raises when the turn of one of its
    elements always raises. *)
Lemma for_each_raises (S : Type) (body : S -> pyval -> prog S)
  (Q : exn -> Prop) :
  (forall acc x e, body acc x = Throw e -> Q e) ->
  (forall acc x, pure (body acc x)) ->
  forall xs,
    (exists x, In x xs /\ forall acc, exists e, body acc x = Throw e) ->
    forall acc, exists e, for_each xs body acc = Throw e /\ Q e.
Proof.
  intros HQ Hpure. induction xs as [| a xs IH]; intros (x & Hin & Hx) acc.
  - destruct Hin.
  - simpl. specialize (Hpure acc a).
    destruct (body acc a) as [acc' | e | r k] eqn:Hbody; simpl.
    + apply IH. destruct Hin as [-> | Hin]; [| eauto].
      destruct (Hx acc) as (e & He). congruence.
    + exists e. split; [reflexivity | eapply HQ, Hbody].
    + destruct Hpure.
Qed.

Lemma forallb_false_exists (A : Type) (ok : A -> bool) (l : list A) :
  forallb ok l = false -> exists x, In x l /\ ok x = false.
Proof.
  induction l as [| a l IH]; simpl; [discriminate |].
  destruct (ok a) eqn:Ha; simpl.
  - intros H. destruct (IH H) as (x & Hin & Hx). eauto.
  - intros _. eauto.
Qed.

(** X3.  [_get_zone_info] on a list of zones: when every zone has SubnetId
    and ZoneName it returns one dict per zone, in order, holding those two
    values under subnetid and zonename and nothing else of the zone; when a
    zone lacks one of the two it raises [KeyError] or [TypeError] and
    returns nothing. *)
Theorem get_zone_info_maps :
  forall zones : list pyval,
    (forallb zone_ok zones = true ->
     exists zs,
       _get_zone_info (PList zones) = Ret (PList zs) /\
       Forall2 (fun zone z =>
                  exists subnetid zonename,
                    field "SubnetId" zone = Some subnetid /\
                    field "ZoneName" zone = Some zonename /\
                    z = PDict [("subnetid", subnetid); ("zonename", zonename)])
               zones zs)
    /\ (forallb zone_ok zones = false ->
        exists e, _get_zone_info (PList zones) = Throw e /\ lookup_error e).
Proof.
  intros zones. split.
  - intros Hok.
    assert (Hloop : forall acc,
      exists zs,
        for_each zones (fun zone_list zone =>
          subnetid <- item zone "SubnetId" ;;
          zonename <- item zone "ZoneName" ;;
          Ret (zone_list ++ [PDict [("subnetid", subnetid);
                                    ("zonename", zonename)]])) acc
        = Ret (acc ++ zs)
        /\ Forall2 (fun zone z =>
                  exists subnetid zonename,
                    field "SubnetId" zone = Some subnetid /\
                    field "ZoneName" zone = Some zonename /\
                    z = PDict [("subnetid", subnetid); ("zonename", zonename)])
               zones zs).
    { induction zones as [| zone zones IH]; intros acc.
      - exists []. rewrite app_nil_r. split; [reflexivity | constructor].
      - simpl in Hok. apply andb_prop in Hok as [Hz Hok].
        apply andb_prop in Hz as [Hs Hn].
        destruct (has_key_item _ _ Hs) as (s & Hfs & His).
        destruct (has_key_item _ _ Hn) as (n & Hfn & Hin).
        destruct (IH Hok (acc ++ [PDict [("subnetid", s); ("zonename", n)]]))
          as (zs & Hzs & Hall).
        exists (PDict [("subnetid", s); ("zonename", n)] :: zs).
        simpl. rewrite His, Hin; simpl. rewrite Hzs, <- app_assoc.
        split; [reflexivity |].
        constructor; [| exact Hall]. exists s, n. auto. }
    destruct (Hloop []) as (zs & Hzs & Hall).
    exists zs. split; [| exact Hall].
    unfold _get_zone_info, py_iter; simpl. rewrite Hzs. reflexivity.
  - intros Hbad.
    destruct (forallb_false_exists _ _ Hbad) as (bad & Hin & Hz).
    destruct (@for_each_raises (list pyval)
                (fun zone_list zone =>
                   subnetid <- item zone "SubnetId" ;;
                   zonename <- item zone "ZoneName" ;;
                   Ret (zone_list ++ [PDict [("subnetid", subnetid);
                                             ("zonename", zonename)]]))
                lookup_error) with (xs := zones) (acc := @nil pyval)
      as (e & He & HQ).
    + intros acc x e H.
      apply bind_throw_inv in H as [H | (s & _ & H)];
        [eapply item_throw_lookup, H |].
      apply bind_throw_inv in H as [H | (n & _ & H)];
        [eapply item_throw_lookup, H | discriminate].
    + intros acc x.
      apply pure_bind; [apply pure_item | intros s].
      apply pure_bind; [apply pure_item | intros n; exact I].
    + exists bad. split; [exact Hin |]. intros acc.
      unfold zone_ok in Hz. apply andb_false_iff in Hz as [Hz | Hz].
      * destruct (item_missing _ _ Hz) as (e & -> & _). simpl. eauto.
      * destruct (item_cases bad "SubnetId") as [(s & -> & _) | (e & -> & _)];
          [| simpl; eauto].
        destruct (item_missing _ _ Hz) as (e & -> & _). simpl. eauto.
    + exists e. split; [| exact HQ].
      unfold _get_zone_info, py_iter; simpl. rewrite He. reflexivity.
Qed.

(** The two zones of the example's load balancers, and a list whose second
    zone has no ZoneName. *)
Lemma get_zone_info_maps_witness :
  (exists zs,
      _get_zone_info (PList Faulty.two_zones) = Ret (PList zs)
      /\ Forall2 (fun zone z =>
                  exists subnetid zonename,
                    field "SubnetId" zone = Some subnetid /\
                    field "ZoneName" zone = Some zonename /\
                    z = PDict [("subnetid", subnetid); ("zonename", zonename)])
           Faulty.two_zones zs)
  /\ (exists e,
        _get_zone_info (PList Faulty.zones_one_unnamed) = Throw e
        /\ lookup_error e).
Proof.
  split.
  - exact (proj1 (get_zone_info_maps Faulty.two_zones) eq_refl).
  - exact (proj2 (get_zone_info_maps Faulty.zones_one_unnamed) eq_refl).
Defined.

Lemma get_zone_info_throw (zones : pyval) (e : exn) :
  _get_zone_info zones = Throw e -> lookup_error e.
Proof.
  unfold _get_zone_info. intros H.
  apply bind_throw_inv in H as [H | (zs & _ & H)].
  - destruct (py_iter_cases zones) as [(xs & Hxs) | Hxs]; rewrite Hxs in H.
    + discriminate.
    + inversion H. right. reflexivity.
  - apply bind_throw_inv in H as [H | (zone_list & _ & H)]; [| discriminate].
    revert H. apply for_each_throw_inv.
    intros acc x e' H.
    apply bind_throw_inv in H as [H | (s & _ & H)];
      [eapply item_throw_lookup, H |].
    apply bind_throw_inv in H as [H | (n & _ & H)];
      [eapply item_throw_lookup, H | discriminate].
Qed.

(** X4.  [_get_elb_info] reads every field of the load balancer before it
    fetches the listeners: for a load balancer that lacks one of the keys
    LoadBalancerArn, AvailabilityZones, LoadBalancerName, DNSName,
    SecurityGroups, State, or Code within State, it raises [KeyError] or
    [TypeError] without having made any provider call. *)
Theorem get_elb_info_missing_key :
  forall (P : provider) (w : world P) (elb : pyval),
    has_record_keys elb = false ->
    exists e,
      run P (_get_elb_info elb) w = (Raised e, [], w) /\ lookup_error e.
Proof.
  intros P w elb Hkeys. unfold _get_elb_info.
  assert (Hstop : forall (A : Type) (p : prog A) (e : exn),
            p = Throw e -> lookup_error e ->
            exists e', run P p w = (Raised e', [], w) /\ lookup_error e').
  { intros A p e -> He. exists e. split; [reflexivity | exact He]. }
  unfold has_record_keys in Hkeys.
  destruct (item_cases elb "LoadBalancerArn") as [(arn & Harn & Hfa) | (e & He & _)];
    [| rewrite He; eapply Hstop; [reflexivity | eapply item_throw_lookup, He]].
  destruct (item_cases elb "AvailabilityZones") as [(azs & Hazs & Hfz) | (e & He & _)];
    [| rewrite Harn, He; eapply Hstop; [reflexivity | eapply item_throw_lookup, He]].
  destruct (_get_zone_info azs) as [zones | e | r k] eqn:Hzones;
    [| rewrite Harn, Hazs; simpl; rewrite Hzones;
       eapply Hstop; [reflexivity | eapply get_zone_info_throw, Hzones]
     | pose proof (pure_get_zone_info azs) as Hp; rewrite Hzones in Hp;
       destruct Hp].
  destruct (item_cases elb "LoadBalancerName") as [(name & Hname & Hfn) | (e & He & _)];
    [| rewrite Harn, Hazs; simpl; rewrite Hzones; simpl; rewrite He;
       eapply Hstop; [reflexivity | eapply item_throw_lookup, He]].
  destruct (item_cases elb "DNSName") as [(dns & Hdns & Hfd) | (e & He & _)];
    [| rewrite Harn, Hazs; simpl; rewrite Hzones; simpl; rewrite Hname, He;
       eapply Hstop; [reflexivity | eapply item_throw_lookup, He]].
  destruct (item_cases elb "SecurityGroups") as [(sgs & Hsgs & Hfs) | (e & He & _)];
    [| rewrite Harn, Hazs; simpl; rewrite Hzones; simpl;
       rewrite Hname, Hdns, He;
       eapply Hstop; [reflexivity | eapply item_throw_lookup, He]].
  destruct (item_cases elb "State") as [(st & Hst & Hft) | (e & He & _)];
    [| rewrite Harn, Hazs; simpl; rewrite Hzones; simpl;
       rewrite Hname, Hdns, Hsgs, He;
       eapply Hstop; [reflexivity | eapply item_throw_lookup, He]].
  destruct (item_cases st "Code") as [(code & Hcode & Hfc) | (e & He & _)];
    [| rewrite Harn, Hazs; simpl; rewrite Hzones; simpl;
       rewrite Hname, Hdns, Hsgs, Hst; simpl; rewrite He;
       eapply Hstop; [reflexivity | eapply item_throw_lookup, He]].
  unfold has_key in Hkeys.
  rewrite Hfa, Hfz, Hfn, Hfd, Hfs, Hft, Hfc in Hkeys. discriminate.
Qed.

(** A load balancer without DNSName, on the example account: no call. *)
Lemma get_elb_info_missing_key_witness :
  exists e,
    run Example.aws (_get_elb_info Faulty.no_dns) 0%nat = (Raised e, [], 0%nat)
    /\ lookup_error e.
Proof.
  exact (get_elb_info_missing_key Example.aws 0%nat Faulty.no_dns eq_refl).
Defined.

(** X5.  The record of a load balancer whose fields are all there: the ARN,
    the name, the DNS name and the security groups are the values of the
    response, the state is the Code of its State, the zones are what
    [_get_zone_info] makes of its AvailabilityZones, and the listeners are
    what [_get_listeners] returns for its ARN.  The calls of
    [_get_elb_info] are those of that listener fetch, and when the fetch
    raises, [_get_elb_info] raises the same and returns no record. *)
Theorem get_elb_info_fields :
  forall (P : provider) (w : world P)
         (elb arn azs zones name dns sgs state code : pyval),
    field "LoadBalancerArn" elb = Some arn ->
    field "AvailabilityZones" elb = Some azs ->
    _get_zone_info azs = Ret zones ->
    field "LoadBalancerName" elb = Some name ->
    field "DNSName" elb = Some dns ->
    field "SecurityGroups" elb = Some sgs ->
    field "State" elb = Some state ->
    field "Code" state = Some code ->
    run P (_get_elb_info elb) w =
      (match outcome_of (run P (_get_listeners arn) w) with
       | Returned listeners =>
           Returned (PDict [("load_balancer_arn", arn);
                            ("zones", zones);
                            ("name", name);
                            ("dns_name", dns);
                            ("security_groups", sgs);
                            ("state", code);
                            ("listeners", listeners)])
       | Raised e => Raised e
       end,
       calls_of (run P (_get_listeners arn) w),
       world_of (run P (_get_listeners arn) w)).
Proof.
  intros P w elb arn azs zones name dns sgs state code
    Harn Hazs Hzones Hname Hdns Hsgs Hstate Hcode.
  unfold _get_elb_info.
  rewrite (item_field _ _ Harn), (item_field _ _ Hazs), (item_field _ _ Hname),
    (item_field _ _ Hdns), (item_field _ _ Hsgs), (item_field _ _ Hstate);
    cbn [bind].
  rewrite Hzones; cbn [bind].
  rewrite (item_field _ _ Hcode); cbn [bind].
  rewrite run_bind.
  destruct (run P (_get_listeners arn) w) as [[[ls | e] t] w1]; simpl;
    [rewrite app_nil_r |]; reflexivity.
Qed.

(** backend-prod-elb of the example account. *)
Lemma get_elb_info_fields_witness :
  run Example.aws (_get_elb_info Example.backend) 0%nat =
    (Returned (PDict [("load_balancer_arn", PStr "arn:lb/back");
                      ("zones",
                        PList [PDict [("subnetid", PStr "subnet-1");
                                      ("zonename", PStr "us-east-1a")];
                               PDict [("subnetid", PStr "subnet-2");
                                      ("zonename", PStr "us-east-1b")]]);
                      ("name", PStr "backend-prod-elb");
                      ("dns_name", PStr "back.example.com");
                      ("security_groups", PList [PStr "sg-1"]);
                      ("state", PStr "active");
                      ("listeners", PList [])]),
     calls_of (run Example.aws (_get_listeners (PStr "arn:lb/back")) 0%nat),
     1%nat).
Proof.
  exact (@get_elb_info_fields Example.aws 0%nat Example.backend
           _ _ _ _ _ _ _ _
           eq_refl eq_refl eq_refl eq_refl eq_refl eq_refl eq_refl eq_refl).
Defined.

(** X6.  The listener fetch collects the ARNs of all the enumerated
    listeners before it asks for any detail: when one listener of the
    enumeration response has no ListenerArn, the fetch raises [KeyError] or
    [TypeError] after the enumeration call alone, and no detail call is
    made, not even for the listeners before that one. *)
Theorem get_listeners_unnamed_listener :
  forall (P : provider) (w w1 : world P) (lb_arn listeners : pyval)
         (ls : list pyval),
    serve P w (DescribeListenersOf lb_arn) = (inl listeners, w1) ->
    field "Listeners" listeners = Some (PList ls) ->
    forallb (has_key "ListenerArn") ls = false ->
    exists e,
      run P (_get_listeners lb_arn) w =
        (Raised e, [(DescribeListenersOf lb_arn, inl listeners)], w1)
      /\ lookup_error e.
Proof.
  intros P w w1 lb_arn listeners ls Hserve Hls Hbad.
  destruct (forallb_false_exists _ _ Hbad) as (bad & Hin & Hkey).
  destruct (@for_each_raises (list pyval)
              (fun listener_arns listener =>
                 a <- item listener "ListenerArn" ;;
                 Ret (listener_arns ++ [a]))
              lookup_error) with (xs := ls) (acc := @nil pyval)
    as (e & He & HQ).
  - intros acc x e H.
    apply bind_throw_inv in H as [H | (a & _ & H)];
      [eapply item_throw_lookup, H | discriminate].
  - intros acc x. apply pure_bind; [apply pure_item | intros a; exact I].
  - exists bad. split; [exact Hin |]. intros acc.
    destruct (item_missing _ _ Hkey) as (e & -> & _). simpl. eauto.
  - exists e. split; [| exact HQ].
    unfold _get_listeners.
    rewrite run_bind, run_guarded_call_surfaced, Hserve; cbn [fst snd].
    unfold collect_listener_arns.
    rewrite (item_field _ _ Hls); cbn [bind].
    unfold py_iter; cbn [bind].
    rewrite He. reflexivity.
Qed.

(** The garbled account: the second enumerated listener has no ARN. *)
Lemma get_listeners_unnamed_listener_witness :
  exists e,
    run Faulty.garbled (_get_listeners (PStr "arn:lb/front")) 0%nat =
      (Raised e,
       [(DescribeListenersOf (PStr "arn:lb/front"),
         Faulty.garbled_answer (DescribeListenersOf (PStr "arn:lb/front")))],
       1%nat)
    /\ lookup_error e.
Proof.
  exact (@get_listeners_unnamed_listener Faulty.garbled 0%nat 1%nat
           (PStr "arn:lb/front") _
           [Example.https_listener_listed;
            PDict [("Port", PInt 80); ("Protocol", PStr "HTTP")]]
           eq_refl eq_refl eq_refl).
Defined.

(** X7.  With a name filter, [list_elbs] reads the name of every load
    balancer of the response before it builds any record: when one of them
    has no LoadBalancerName, whether the filter would retain it or not, the
    listing raises [KeyError] or [TypeError] after the listing call alone,
    and no listener call is made. *)
Theorem list_elbs_unnamed_load_balancer :
  forall (P : provider) (w w1 : world P) (names : list string)
         (all_elbs : pyval) (lbs : list pyval),
    names <> [] ->
    serve P w DescribeLoadBalancers = (inl all_elbs, w1) ->
    field "LoadBalancers" all_elbs = Some (PList lbs) ->
    forallb (has_key "LoadBalancerName") lbs = false ->
    exists e,
      run P (list_elbs names) w =
        (Raised e, [(DescribeLoadBalancers, inl all_elbs)], w1)
      /\ lookup_error e.
Proof.
  intros P w w1 names all_elbs lbs Hnames Hserve Hlbs Hbad.
  destruct (forallb_false_exists _ _ Hbad) as (bad & Hin & Hkey).
  destruct (@for_each_raises (list pyval)
              (fun elb_array existing_lb =>
                 n <- item existing_lb "LoadBalancerName" ;;
                 if py_in n names then Ret (elb_array ++ [existing_lb])
                 else Ret elb_array)
              lookup_error) with (xs := lbs) (acc := @nil pyval)
    as (e & He & HQ).
  - intros acc x e H.
    apply bind_throw_inv in H as [H | (n & _ & H)];
      [eapply item_throw_lookup, H |].
    destruct (py_in n names); discriminate.
  - intros acc x. apply pure_bind; [apply pure_item | intros n].
    destruct (py_in n names); exact I.
  - exists bad. split; [exact Hin |]. intros acc.
    destruct (item_missing _ _ Hkey) as (e & -> & _). simpl. eauto.
  - exists e. split; [| exact HQ].
    assert (Htrue : truthy all_elbs = true).
    { destruct all_elbs as [| | | | | [| entry entries]]; try discriminate.
      reflexivity. }
    unfold list_elbs.
    rewrite run_bind, run_guarded_call_surfaced, Hserve; cbn [fst snd].
    rewrite Htrue.
    destruct names as [| n names]; [contradiction |].
    unfold select_named.
    rewrite (item_field _ _ Hlbs); cbn [bind].
    unfold py_iter; cbn [bind].
    rewrite He. reflexivity.
Qed.

(** The garbled account, filtered for frontend-prod-elb: the entry without a
    name, which comes second, stops the listing. *)
Lemma list_elbs_unnamed_load_balancer_witness :
  exists e,
    run Faulty.garbled (list_elbs ["frontend-prod-elb"]) 0%nat =
      (Raised e,
       [(DescribeLoadBalancers, Faulty.garbled_answer DescribeLoadBalancers)],
       1%nat)
    /\ lookup_error e.
Proof.
  refine (@list_elbs_unnamed_load_balancer Faulty.garbled 0%nat 1%nat
            ["frontend-prod-elb"] _
            [Example.frontend;
             PDict [("LoadBalancerArn", PStr "arn:lb/anon");
                    ("DNSName", PStr "anon.example.com")]]
            _ eq_refl eq_refl eq_refl).
  discriminate.
Defined.

(* ================================================================= *)
(** ** Certificates that are not a list of dicts *)

Lemma item_not_dict (v : pyval) (k : string) :
  (forall entries, v <> PDict entries) -> item v k = Throw TypeError.
Proof.
  intros H. unfold item. destruct v; try reflexivity.
  destruct (H entries eq_refl).
Qed.

(** X8.  The [try] around the certificate lookup handles [IndexError] and
    [KeyError] only.  For a listener detail with the four copied fields,
    a Certificates value that is [None], a boolean or a number, or a
    Certificates list whose first entry is not a dict, makes the building of
    the record raise [TypeError]: no record is built for that listener. *)
Theorem build_listener_dict_type_error :
  forall listener listener_arn port protocol default_actions : pyval,
    field "ListenerArn" listener = Some listener_arn ->
    field "Port" listener = Some port ->
    field "Protocol" listener = Some protocol ->
    field "DefaultActions" listener = Some default_actions ->
    (forall certificates : pyval,
        field "Certificates" listener = Some certificates ->
        (certificates = PNone
         \/ (exists b, certificates = PBool b)
         \/ (exists z, certificates = PInt z)) ->
        build_listener_dict listener = Throw TypeError)
    /\ (forall (first : pyval) (rest : list pyval),
        field "Certificates" listener = Some (PList (first :: rest)) ->
        (forall entries, first <> PDict entries) ->
        build_listener_dict listener = Throw TypeError).
Proof.
  intros listener listener_arn port protocol default_actions Ha Hp Hr Hd.
  unfold build_listener_dict.
  rewrite (item_field _ _ Ha), (item_field _ _ Hp), (item_field _ _ Hr),
    (item_field _ _ Hd); cbn [bind].
  split.
  - intros certificates Hc Hkind.
    rewrite (item_field _ _ Hc); cbn [bind].
    destruct Hkind as [-> | [[b ->] | [z ->]]]; reflexivity.
  - intros first rest Hc Hfirst.
    rewrite (item_field _ _ Hc); cbn [bind].
    rewrite index_first; cbn [bind].
    rewrite (item_not_dict _ Hfirst). reflexivity.
Qed.

(** A detail whose Certificates is null. *)
Lemma build_listener_dict_type_error_witness :
  build_listener_dict
    (PDict [("ListenerArn", PStr "arn:listener/front/443");
            ("Port", PInt 443);
            ("Protocol", PStr "HTTPS");
            ("Certificates", PNone);
            ("DefaultActions", PList [])])
  = Throw TypeError.
Proof.
  exact (proj1 (@build_listener_dict_type_error
                  (PDict [("ListenerArn", PStr "arn:listener/front/443");
                          ("Port", PInt 443);
                          ("Protocol", PStr "HTTPS");
                          ("Certificates", PNone);
                          ("DefaultActions", PList [])])
                  _ _ _ _ eq_refl eq_refl eq_refl eq_refl)
           PNone eq_refl (or_introl eq_refl)).
Defined.

(* ================================================================= *)
(** ** More on the name filter *)

Lemma py_in_in_filter_any (names : list string) (elb n : pyval) :
  field "LoadBalancerName" elb = Some n ->
  py_in n names = in_filter names elb.
Proof.
  intros Hn.
  destruct n as [| b | z | s | l | d];
    try (unfold in_filter, name_of, py_in; rewrite Hn; reflexivity).
  apply py_in_in_filter, Hn.
Qed.

(** On a list of named load balancers the filter loop is [filter]. *)
Lemma select_loop_named (names : list string) (lbs : list pyval) :
  forallb (has_key "LoadBalancerName") lbs = true ->
  forall acc,
    for_each lbs (fun elb_array existing_lb =>
      n <- item existing_lb "LoadBalancerName" ;;
      if py_in n names then Ret (elb_array ++ [existing_lb]) else Ret elb_array)
      acc
    = Ret (acc ++ filter (in_filter names) lbs).
Proof.
  induction lbs as [| lb lbs IH]; simpl; intros Hok acc.
  - rewrite app_nil_r. reflexivity.
  - apply andb_prop in Hok as [Hlb Hok].
    destruct (has_key_item _ _ Hlb) as (n & Hn & Hi).
    rewrite Hi; simpl.
    rewrite (py_in_in_filter_any names lb Hn).
    destruct (in_filter names lb); simpl; rewrite IH by assumption.
    + rewrite <- app_assoc. reflexivity.
    + reflexivity.
Qed.

Lemma filter_none (A : Type) (keep : A -> bool) (l : list A) :
  (forall x, In x l -> keep x = false) -> filter keep l = [].
Proof.
  induction l as [| a l IH]; simpl; intros H; [reflexivity |].
  rewrite (H a (or_introl eq_refl)). apply IH. intros x Hx. apply H. auto.
Qed.

(** X9.  Two ways to the empty result.  When the listing response is empty
    (a value Python takes for false, such as the empty dict), [list_elbs]
    returns the empty list, with or without a name filter.  When a name
    filter is given and no load balancer of the response has a name in the
    filter set, [list_elbs] returns the empty list too.  In both cases the
    listing call is the only call made and nothing is raised. *)
Theorem list_elbs_empty_result :
  forall (P : provider) (w w1 : world P) (names : list string)
         (all_elbs : pyval),
    serve P w DescribeLoadBalancers = (inl all_elbs, w1) ->
    (truthy all_elbs = false ->
     run P (list_elbs names) w =
       (Returned (PList []), [(DescribeLoadBalancers, inl all_elbs)], w1))
    /\ (forall lbs : list pyval,
          names <> [] ->
          field "LoadBalancers" all_elbs = Some (PList lbs) ->
          forallb (has_key "LoadBalancerName") lbs = true ->
          (forall elb, In elb lbs -> in_filter names elb = false) ->
          run P (list_elbs names) w =
            (Returned (PList []), [(DescribeLoadBalancers, inl all_elbs)], w1)).
Proof.
  intros P w w1 names all_elbs Hserve.
  unfold list_elbs.
  rewrite run_bind, run_guarded_call_surfaced, Hserve; cbn [fst snd].
  split.
  - intros ->. reflexivity.
  - intros lbs Hnames Hlbs Hnamed Hnone.
    assert (Htrue : truthy all_elbs = true).
    { destruct all_elbs as [| | | | | [| entry entries]]; try discriminate.
      reflexivity. }
    rewrite Htrue.
    destruct names as [| n names]; [contradiction |].
    unfold select_named.
    rewrite (item_field _ _ Hlbs); cbn [bind].
    unfold py_iter; cbn [bind].
    rewrite (select_loop_named (n :: names) lbs Hnamed []).
    rewrite (filter_none _ _ Hnone). reflexivity.
Qed.

(** The example account, filtered for a name no load balancer has. *)
Lemma list_elbs_empty_result_witness :
  run Example.aws (list_elbs ["staging-elb"]) 0%nat =
    (Returned (PList []), [(DescribeLoadBalancers, inl Example.all_elbs)], 1%nat).
Proof.
  refine (proj2 (@list_elbs_empty_result Example.aws 0%nat 1%nat
                   ["staging-elb"] Example.all_elbs eq_refl)
            [Example.frontend; Example.backend] _ eq_refl eq_refl _).
  - discriminate.
  - intros elb [<- | [<- | []]]; reflexivity.
Defined.

Lemma py_in_members (names1 names2 : list string) (x : pyval) :
  (forall n, In n names1 <-> In n names2) ->
  py_in x names1 = py_in x names2.
Proof.
  intros Hsame. unfold py_in. destruct x; try reflexivity.
  destruct (existsb (String.eqb s) names1) eqn:H1;
    destruct (existsb (String.eqb s) names2) eqn:H2; try reflexivity.
  - apply existsb_exists in H1 as (n & Hn & Heq).
    assert (H : existsb (String.eqb s) names2 = true)
      by (apply existsb_exists; exists n; split; [apply Hsame, Hn | exact Heq]).
    congruence.
  - apply existsb_exists in H2 as (n & Hn & Heq).
    assert (H : existsb (String.eqb s) names1 = true)
      by (apply existsb_exists; exists n; split; [apply Hsame, Hn | exact Heq]).
    congruence.
Qed.

Lemma select_loop_members (names1 names2 : list string) :
  (forall n, In n names1 <-> In n names2) ->
  forall (lbs acc : list pyval),
    for_each lbs (fun elb_array existing_lb =>
      n <- item existing_lb "LoadBalancerName" ;;
      if py_in n names1 then Ret (elb_array ++ [existing_lb]) else Ret elb_array)
      acc
    = for_each lbs (fun elb_array existing_lb =>
      n <- item existing_lb "LoadBalancerName" ;;
      if py_in n names2 then Ret (elb_array ++ [existing_lb]) else Ret elb_array)
      acc.
Proof.
  intros Hsame. induction lbs as [| lb lbs IH]; intros acc; [reflexivity |].
  simpl.
  destruct (item_cases lb "LoadBalancerName") as [(n & -> & _) | (e & -> & _)];
    [| reflexivity].
  simpl. rewrite (@py_in_members names1 names2 n Hsame).
  destruct (py_in n names2); simpl; apply IH.
Qed.

(** X10.  The name filter is used as a set: two non-empty filters with the
    same members, in whatever order and with whatever repetitions, give the
    same run of [list_elbs] against any provider: the same result or
    exception, after the same calls. *)
Theorem list_elbs_filter_is_a_set :
  forall (P : provider) (w : world P) (names1 names2 : list string),
    names1 <> [] ->
    names2 <> [] ->
    (forall n, In n names1 <-> In n names2) ->
    run P (list_elbs names1) w = run P (list_elbs names2) w.
Proof.
  intros P w names1 names2 H1 H2 Hsame.
  unfold list_elbs.
  rewrite !run_bind, run_guarded_call_surfaced.
  destruct (fst (serve P w DescribeLoadBalancers)) as [all_elbs | e];
    [| reflexivity].
  destruct (truthy all_elbs); [| reflexivity].
  destruct names1 as [| n1 names1]; [contradiction |].
  destruct names2 as [| n2 names2]; [contradiction |].
  assert (Hsel : select_named (n1 :: names1) all_elbs
                 = select_named (n2 :: names2) all_elbs).
  { unfold select_named.
    destruct (item_cases all_elbs "LoadBalancers")
      as [(lbs & -> & _) | (e & -> & _)]; [| reflexivity].
    cbn [bind].
    destruct (py_iter_cases lbs) as [(xs & ->) | ->]; [| reflexivity].
    cbn [bind]. apply select_loop_members, Hsame. }
  rewrite Hsel. reflexivity.
Qed.

(** The two load balancers of the example, named in two ways. *)
Lemma list_elbs_filter_is_a_set_witness :
  run Example.aws (list_elbs ["frontend-prod-elb"; "backend-prod-elb"]) 0%nat
  = run Example.aws
      (list_elbs ["backend-prod-elb"; "frontend-prod-elb"; "backend-prod-elb"])
      0%nat.
Proof.
  refine (@list_elbs_filter_is_a_set Example.aws 0%nat
            ["frontend-prod-elb"; "backend-prod-elb"]
            ["backend-prod-elb"; "frontend-prod-elb"; "backend-prod-elb"]
            _ _ _).
  - discriminate.
  - discriminate.
  - intros n. simpl. tauto.
Defined.

(* ================================================================= *)
(** ** Which load balancers the listing asks about *)

Lemma no_enumeration_among_details (arns : list pyval) :
  filter is_enumeration (detail_requests arns) = [].
Proof. induction arns as [| a arns IH]; simpl; auto. Qed.

Lemma prefix_filter_nil (A : Type) (keep : A -> bool) (l1 l2 : list A) :
  prefix l1 l2 -> filter keep l2 = [] -> filter keep l1 = [].
Proof.
  intros [rest ->]. rewrite filter_app. intros H.
  apply app_eq_nil in H. tauto.
Qed.

(** Whatever happens, the listener fetch enumerates once, for its ARN. *)
Lemma get_listeners_enumerates_once (P : provider) (w : world P)
  (lb_arn : pyval) :
  filter is_enumeration (requests (calls_of (run P (_get_listeners lb_arn) w)))
  = [DescribeListenersOf lb_arn].
Proof.
  unfold _get_listeners.
  rewrite calls_of_run_bind, run_guarded_call_surfaced.
  cbn [outcome_of calls_of world_of fst snd].
  destruct (fst (serve P w (DescribeListenersOf lb_arn))) as [listeners | e];
    [| reflexivity].
  rewrite calls_of_run_bind.
  rewrite (run_pure P _ _ (pure_collect_listener_arns listeners)).
  cbn [outcome_of calls_of world_of fst snd].
  destruct (collect_listener_arns listeners) as [arns | e | r k];
    cbn [pure_outcome]; try reflexivity.
  destruct (fetch_listeners_calls P arns (snd (serve P w (DescribeListenersOf lb_arn))))
    as [Hpre _].
  unfold requests in *. cbn [app map filter is_enumeration fst].
  f_equal.
  eapply prefix_filter_nil; [exact Hpre | apply no_enumeration_among_details].
Qed.

Lemma get_elb_info_enumerates_once (P : provider) (w : world P) (elb : pyval) :
  load_balancer_ok elb = true ->
  filter is_enumeration (requests (calls_of (run P (_get_elb_info elb) w)))
  = [enumeration_of elb].
Proof.
  intros Hok.
  destruct (get_elb_info_ok elb Hok)
    as (arn & zones & name & dns & sgs & state & Harn & _ & _ & _ & _ & ->).
  unfold enumeration_of, arn_of. rewrite Harn.
  rewrite calls_of_run_bind.
  destruct (outcome_of (run P (_get_listeners arn) w)) as [ls | e].
  - cbn [run calls_of fst snd]. rewrite app_nil_r.
    apply get_listeners_enumerates_once.
  - apply get_listeners_enumerates_once.
Qed.

Lemma py_map_enumerations (P : provider) :
  forall (elbs : list pyval) (w : world P),
    forallb load_balancer_ok elbs = true ->
    prefix (filter is_enumeration
              (requests (calls_of (run P (py_map _get_elb_info elbs) w))))
           (map enumeration_of elbs)
    /\ forall infos,
        outcome_of (run P (py_map _get_elb_info elbs) w) = Returned infos ->
        filter is_enumeration
          (requests (calls_of (run P (py_map _get_elb_info elbs) w)))
        = map enumeration_of elbs.
Proof.
  induction elbs as [| elb elbs IH]; intros w Hok.
  - split; [exists []; reflexivity | reflexivity].
  - simpl in Hok. apply andb_prop in Hok as [Helb Hok].
    cbn [py_map map].
    rewrite calls_of_run_bind, outcome_of_run_bind.
    pose proof (get_elb_info_enumerates_once P w elb Helb) as Hone.
    destruct (outcome_of (run P (_get_elb_info elb) w)) as [info | e].
    + rewrite calls_of_run_bind, outcome_of_run_bind.
      destruct (IH (world_of (run P (_get_elb_info elb) w)) Hok) as [Hpre Hall].
      destruct (outcome_of (run P (py_map _get_elb_info elbs)
                              (world_of (run P (_get_elb_info elb) w))))
        as [infos | e].
      * cbn [run calls_of fst snd]. rewrite app_nil_r.
        unfold requests in *. rewrite map_app, filter_app, Hone.
        rewrite (Hall infos eq_refl).
        split; [exists []; rewrite app_nil_r; reflexivity | reflexivity].
      * unfold requests in *. rewrite map_app, filter_app, Hone.
        destruct Hpre as [rest Hrest].
        split; [| discriminate].
        exists rest. cbn [app]. rewrite Hrest. reflexivity.
    + unfold requests in *. rewrite Hone.
      split; [| discriminate].
      exists (map enumeration_of elbs). reflexivity.
Qed.

(** X11.  With a name filter and a listing response of well-formed load
    balancers, [list_elbs] enumerates listeners only for load balancers the
    filter retains, in the order of the response and once each: when it
    returns it has enumerated for every retained load balancer, when it
    fails for those up to the failure.  It never asks about a load balancer
    that the filter left out. *)
Theorem list_elbs_enumerates_retained_only :
  forall (P : provider) (w w1 : world P) (names : list string)
         (all_elbs : pyval) (lbs : list pyval),
    names <> [] ->
    serve P w DescribeLoadBalancers = (inl all_elbs, w1) ->
    field "LoadBalancers" all_elbs = Some (PList lbs) ->
    forallb load_balancer_ok lbs = true ->
    prefix (filter is_enumeration
              (requests (calls_of (run P (list_elbs names) w))))
           (map enumeration_of (filter (in_filter names) lbs))
    /\ forall result,
        outcome_of (run P (list_elbs names) w) = Returned result ->
        filter is_enumeration (requests (calls_of (run P (list_elbs names) w)))
        = map enumeration_of (filter (in_filter names) lbs).
Proof.
  intros P w w1 names all_elbs lbs Hnames Hserve Hlbs Hok.
  assert (Htrue : truthy all_elbs = true).
  { destruct all_elbs as [| | | | | [| entry entries]]; try discriminate.
    reflexivity. }
  destruct (py_map_enumerations P (filter (in_filter names) lbs) w1
              (forallb_filter _ _ lbs Hok)) as [Hpre Hall].
  unfold list_elbs.
  rewrite calls_of_run_bind, outcome_of_run_bind, run_guarded_call_surfaced,
    Hserve.
  cbn [outcome_of calls_of world_of fst snd].
  rewrite Htrue.
  destruct names as [| n names]; [contradiction |].
  rewrite (select_named_ok (n :: names) all_elbs Hlbs Hok); cbn [bind].
  unfold py_iter; cbn [bind].
  rewrite calls_of_run_bind, outcome_of_run_bind.
  destruct (outcome_of (run P (py_map _get_elb_info
                                 (filter (in_filter (n :: names)) lbs)) w1))
    as [infos | e].
  - cbn [run calls_of outcome_of fst snd]. rewrite app_nil_r.
    unfold requests in *. cbn [app map filter is_enumeration fst].
    split; [exact Hpre | intros _ _; apply (Hall infos eq_refl)].
  - unfold requests in *. cbn [app map filter is_enumeration fst].
    split; [exact Hpre | discriminate].
Qed.

(** The example account filtered for backend-prod-elb: the listeners of
    frontend-prod-elb are not asked for. *)
Lemma list_elbs_enumerates_retained_only_witness :
  filter is_enumeration
    (requests (calls_of (run Example.aws (list_elbs ["backend-prod-elb"]) 0%nat)))
  = [DescribeListenersOf (PStr "arn:lb/back")].
Proof.
  destruct (@list_elbs_enumerates_retained_only Example.aws 0%nat 1%nat
              ["backend-prod-elb"] Example.all_elbs
              [Example.frontend; Example.backend]
              ltac:(discriminate) eq_refl eq_refl eq_refl) as [_ Hall].
  rewrite (Hall (PList [match outcome_of
                                (run Example.aws
                                   (_get_elb_info Example.backend) 1%nat) with
                        | Returned info => info
                        | Raised _ => PNone
                        end]) eq_refl).
  reflexivity.
Defined.

(* ================================================================= *)
(** ** No partial results *)

(** [map] over [xs ++ ys] is [map] over [xs] followed, when that completes,
    by [map] over [ys]; the first exception ends it. *)
Lemma run_py_map_app (P : provider) (f : pyval -> prog pyval)
  (ys : list pyval) :
  forall (xs : list pyval) (w : world P),
    run P (py_map f (xs ++ ys)) w =
      match run P (py_map f xs) w with
      | (Returned done, t1, w1) =>
          match run P (py_map f ys) w1 with
          | (Returned rest, t2, w2) => (Returned (done ++ rest), t1 ++ t2, w2)
          | (Raised e, t2, w2) => (Raised e, t1 ++ t2, w2)
          end
      | (Raised e, t1, w1) => (Raised e, t1, w1)
      end.
Proof.
  induction xs as [| x xs IH]; intros w.
  - simpl. destruct (run P (py_map f ys) w) as [[[rest | e] t] w2]; reflexivity.
  - cbn [app py_map]. rewrite !run_bind.
    destruct (run P (f x) w) as [[[y | e] t0] w0]; [| reflexivity].
    rewrite !run_bind, IH.
    destruct (run P (py_map f xs) w0) as [[[done | e] t1] w1];
      [| reflexivity].
    cbn [run].
    destruct (run P (py_map f ys) w1) as [[[rest | e] t2] w2]; simpl;
      rewrite ?app_nil_r, ?app_assoc; reflexivity.
Qed.

(** X12.  [list_elbs] returns all the records or none.  With a name filter
    and a listing response of well-formed load balancers, when the records
    of the first retained load balancers are built and the building of the
    record of the next one raises, [list_elbs] raises that exception: the
    records built so far are not returned, and the retained load balancers
    after the failing one are not looked at. *)
Theorem list_elbs_fails_fast :
  forall (P : provider) (w w0 w1 w2 : world P) (names : list string)
         (all_elbs elb : pyval) (lbs before after infos : list pyval)
         (t1 t2 : trace) (e : exn),
    names <> [] ->
    serve P w DescribeLoadBalancers = (inl all_elbs, w0) ->
    field "LoadBalancers" all_elbs = Some (PList lbs) ->
    forallb load_balancer_ok lbs = true ->
    filter (in_filter names) lbs = before ++ elb :: after ->
    run P (py_map _get_elb_info before) w0 = (Returned infos, t1, w1) ->
    run P (_get_elb_info elb) w1 = (Raised e, t2, w2) ->
    run P (list_elbs names) w =
      (Raised e, (DescribeLoadBalancers, inl all_elbs) :: t1 ++ t2, w2).
Proof.
  intros P w w0 w1 w2 names all_elbs elb lbs before after infos t1 t2 e
    Hnames Hserve Hlbs Hok Hsplit Hbefore Hfail.
  assert (Htrue : truthy all_elbs = true).
  { destruct all_elbs as [| | | | | [| entry entries]]; try discriminate.
    reflexivity. }
  unfold list_elbs.
  rewrite run_bind, run_guarded_call_surfaced, Hserve; cbn [fst snd].
  rewrite Htrue.
  destruct names as [| n names]; [contradiction |].
  rewrite (select_named_ok (n :: names) all_elbs Hlbs Hok); cbn [bind].
  unfold py_iter; cbn [bind].
  rewrite run_bind, Hsplit, run_py_map_app, Hbefore.
  cbn [py_map]. rewrite run_bind, Hfail. reflexivity.
Qed.

(** The throttled account, filtered for both load balancers: the record of
    frontend-prod-elb is built, the listeners of backend-prod-elb cannot be
    enumerated, and the listing fails. *)
Lemma list_elbs_fails_fast_witness :
  outcome_of
    (run Faulty.throttled
       (list_elbs ["frontend-prod-elb"; "backend-prod-elb"]) 0%nat)
  = Raised (FailJson "Throttling: Rate exceeded").
Proof.
  rewrite (@list_elbs_fails_fast Faulty.throttled 0%nat 1%nat 4%nat 5%nat
             ["frontend-prod-elb"; "backend-prod-elb"]
             (PDict [("LoadBalancers", PList [Example.frontend; Example.backend]);
                     Example.metadata])
             Example.backend
             [Example.frontend; Example.backend]
             [Example.frontend] []
             [match outcome_of (run Faulty.throttled
                                  (_get_elb_info Example.frontend) 1%nat) with
              | Returned info => info
              | Raised _ => PNone
              end]
             (calls_of (run Faulty.throttled
                          (py_map _get_elb_info [Example.frontend]) 1%nat))
             (calls_of (run Faulty.throttled
                          (_get_elb_info Example.backend) 4%nat))
             (FailJson "Throttling: Rate exceeded")
             ltac:(discriminate) eq_refl eq_refl eq_refl eq_refl eq_refl eq_refl).
  reflexivity.
Defined.

(* ================================================================= *)
(** ** [main] and the clients *)

(** X13.  With boto present and a region from both lookups, [main] first
    constructs the ec2 client and then the elbv2 client, both for the region
    of the boto3 lookup.  When the construction of either raises, whatever
    the exception, it meets [except ClientError], whose class is bound
    nowhere: [main] ends there in [NameError], the handler's [fail_json]
    does not run, and no load balancer is listed. *)
Theorem main_client_failure :
  forall (P : provider) (w w1 : world P) (env : module_env),
    HAS_BOTO env = true ->
    truthy (get_aws_connection_info env false) = true ->
    truthy (get_aws_connection_info env true) = true ->
    let region := get_aws_connection_info env true in
    (forall e,
        serve P w (Boto3Conn "ec2" region) = (inr e, w1) ->
        run P (main env) w =
          (Raised NameError, [(Boto3Conn "ec2" region, inr e)], w1))
    /\ (forall ec2 e (w2 : world P),
          serve P w (Boto3Conn "ec2" region) = (inl ec2, w1) ->
          serve P w1 (Boto3Conn "elbv2" region) = (inr e, w2) ->
          run P (main env) w =
            (Raised NameError,
             [(Boto3Conn "ec2" region, inl ec2);
              (Boto3Conn "elbv2" region, inr e)], w2)).
Proof.
  intros P w w1 env Hboto Hregion Hregion3 region.
  unfold main, ElbInformation, _get_elb_connection.
  rewrite Hboto, Hregion, Hregion3.
  fold region. split.
  - intros e Hserve. simpl. rewrite Hserve. reflexivity.
  - intros ec2 e w2 Hec2 Helbv2. simpl. rewrite Hec2. simpl. rewrite Helbv2.
    reflexivity.
Qed.

(** The offline account: the first client cannot be constructed, and the
    botocore [ClientError] of the construction ends as [NameError]. *)
Lemma main_client_failure_witness :
  run Faulty.offline (main (Example.env ["frontend-prod-elb"])) 0%nat =
    (Raised NameError,
     [(Boto3Conn "ec2" (PStr "us-east-1"),
       inr (ClientError "Could not connect to the endpoint URL"))], 1%nat).
Proof.
  exact (proj1 (@main_client_failure Faulty.offline 0%nat 1%nat
                  (Example.env ["frontend-prod-elb"]) eq_refl eq_refl eq_refl)
           (ClientError "Could not connect to the endpoint URL") eq_refl).
Defined.

(** The account where only the second client cannot be constructed. *)
Example main_second_client_failure :
  run Faulty.half_offline (main (Example.env ["frontend-prod-elb"])) 0%nat =
    (Raised NameError,
     [(Boto3Conn "ec2" (PStr "us-east-1"), inl PNone);
      (Boto3Conn "elbv2" (PStr "us-east-1"),
       inr (ClientError "Unknown service: elbv2"))], 2%nat).
Proof. reflexivity. Qed.

(** X14.  With boto present, a region from both lookups and both clients
    constructed, [main] is [list_elbs] for the [names] parameter in a
    wrapper: its calls are the two constructions followed by the calls of
    [list_elbs]; when [list_elbs] returns, [main] hands to [exit_json] the
    dict with [changed] false and [elbs] that very result; when [list_elbs]
    raises, [main] raises the same.  [main] makes no call of its own through
    either client. *)
Theorem main_runs_list_elbs :
  forall (P : provider) (w w1 w2 : world P) (env : module_env)
         (ec2 elbv2 : pyval),
    HAS_BOTO env = true ->
    truthy (get_aws_connection_info env false) = true ->
    truthy (get_aws_connection_info env true) = true ->
    let region := get_aws_connection_info env true in
    serve P w (Boto3Conn "ec2" region) = (inl ec2, w1) ->
    serve P w1 (Boto3Conn "elbv2" region) = (inl elbv2, w2) ->
    run P (main env) w =
      (match outcome_of (run P (list_elbs (names env)) w2) with
       | Returned elbs =>
           Returned (PDict [("changed", PBool false); ("elbs", elbs)])
       | Raised e => Raised e
       end,
       (Boto3Conn "ec2" region, inl ec2)
         :: (Boto3Conn "elbv2" region, inl elbv2)
         :: calls_of (run P (list_elbs (names env)) w2),
       world_of (run P (list_elbs (names env)) w2)).
Proof.
  intros P w w1 w2 env ec2 elbv2 Hboto Hregion Hregion3 region Hec2 Helbv2.
  unfold main, ElbInformation, _get_elb_connection.
  rewrite Hboto, Hregion, Hregion3.
  fold region. cbn [bind try_except_else call].
  cbn [run]. rewrite Hec2. cbn [bind try_except_else]. cbn [run].
  rewrite Helbv2. cbn [bind try_except_else].
  rewrite run_bind.
  destruct (run P (list_elbs (names env)) w2) as [[[elbs | e] t] w3];
    cbn [run outcome_of calls_of world_of fst snd];
    [rewrite app_nil_r |]; reflexivity.
Qed.

(** The example account, filtered for backend-prod-elb. *)
Lemma main_runs_list_elbs_witness :
  run Example.aws (main (Example.env ["backend-prod-elb"])) 0%nat =
    (match outcome_of (run Example.aws (list_elbs ["backend-prod-elb"]) 2%nat) with
     | Returned elbs =>
         Returned (PDict [("changed", PBool false); ("elbs", elbs)])
     | Raised e => Raised e
     end,
     (Boto3Conn "ec2" (PStr "us-east-1"), inl PNone)
       :: (Boto3Conn "elbv2" (PStr "us-east-1"), inl PNone)
       :: calls_of (run Example.aws (list_elbs ["backend-prod-elb"]) 2%nat),
     world_of (run Example.aws (list_elbs ["backend-prod-elb"]) 2%nat)).
Proof.
  exact (@main_runs_list_elbs Example.aws 0%nat 1%nat 2%nat
           (Example.env ["backend-prod-elb"]) PNone PNone
           eq_refl eq_refl eq_refl eq_refl eq_refl).
Defined.

(* ================================================================= *)
(** ** More edges of the listener fetch *)

(** X15.  [listener_dict] is bound only by the inner loop.  When the detail
    response for the first enumerated ARN holds no listener, the append
    after the inner loop finds [listener_dict] unbound: the listener fetch
    raises [UnboundLocalError] after the enumeration and that one detail
    call, whatever the later ARNs are. *)
Theorem get_listeners_first_detail_empty :
  forall (P : provider) (w w1 w2 : world P)
         (lb_arn listeners arn listener_data : pyval) (later : list pyval),
    serve P w (DescribeListenersOf lb_arn) = (inl listeners, w1) ->
    enumeration_ok listeners = true ->
    listed_arns listeners = arn :: later ->
    serve P w1 (DescribeListeners [arn]) = (inl listener_data, w2) ->
    field "Listeners" listener_data = Some (PList []) ->
    run P (_get_listeners lb_arn) w =
      (Raised UnboundLocalError,
       [(DescribeListenersOf lb_arn, inl listeners);
        (DescribeListeners [arn], inl listener_data)],
       w2).
Proof.
  intros P w w1 w2 lb_arn listeners arn listener_data later
    Hserve Hok Harns Hdetail Hempty.
  rewrite (run_get_listeners P w lb_arn Hserve Hok), Harns.
  rewrite run_fetch_listeners.
  cbn [for_each]. rewrite run_bind, run_fetch_listener, Hdetail.
  cbn [fst snd]. unfold record_listeners.
  rewrite (item_field _ _ Hempty). reflexivity.
Qed.

(** The provider whose detail for b holds no listener, asked about the load
    balancer for which it enumerates b first. *)
Lemma get_listeners_first_detail_empty_witness :
  run Example.odd (_get_listeners (PStr "arn:lb/rev")) 0%nat =
    (Raised UnboundLocalError,
     [(DescribeListenersOf (PStr "arn:lb/rev"), inl Example.enumeration_b_a);
      (DescribeListeners [PStr "arn:listener/b"], inl Example.detail_of_b)],
     2%nat).
Proof.
  exact (@get_listeners_first_detail_empty Example.odd 0%nat 1%nat 2%nat
           (PStr "arn:lb/rev") Example.enumeration_b_a
           (PStr "arn:listener/b") Example.detail_of_b
           [PStr "arn:listener/a"]
           eq_refl eq_refl eq_refl eq_refl eq_refl).
Defined.

(** X16.  The dict literal of a listener stands before the [try]: for a
    listener detail that lacks ListenerArn, Port, Protocol or
    DefaultActions, the building of the record raises [KeyError] or
    [TypeError], whatever its certificates are; the handlers of the
    certificate lookup do not cover it. *)
Theorem build_listener_dict_missing_field :
  forall listener : pyval,
    has_listener_keys listener = false ->
    exists e, build_listener_dict listener = Throw e /\ lookup_error e.
Proof.
  intros listener Hkeys. unfold build_listener_dict.
  unfold has_listener_keys, has_key in Hkeys.
  destruct (item_cases listener "ListenerArn") as [(a & -> & Hfa) | (e & He & _)];
    [| rewrite He; exists e; split;
       [reflexivity | eapply item_throw_lookup, He]].
  destruct (item_cases listener "Port") as [(p & -> & Hfp) | (e & He & _)];
    [| rewrite He; exists e; split;
       [reflexivity | eapply item_throw_lookup, He]].
  destruct (item_cases listener "Protocol") as [(r & -> & Hfr) | (e & He & _)];
    [| rewrite He; exists e; split;
       [reflexivity | eapply item_throw_lookup, He]].
  destruct (item_cases listener "DefaultActions")
    as [(d & -> & Hfd) | (e & He & _)];
    [| rewrite He; exists e; split;
       [reflexivity | eapply item_throw_lookup, He]].
  rewrite Hfa, Hfp, Hfr, Hfd in Hkeys. discriminate.
Qed.

(** The second listener of the garbled enumeration: no ARN, no actions. *)
Lemma build_listener_dict_missing_field_witness :
  exists e,
    build_listener_dict (PDict [("Port", PInt 80); ("Protocol", PStr "HTTP")])
    = Throw e
    /\ lookup_error e.
Proof.
  exact (build_listener_dict_missing_field
           (PDict [("Port", PInt 80); ("Protocol", PStr "HTTP")]) eq_refl).
Defined.

(* ================================================================= *)
(** ** What [list_elbs] calls *)

Section Calls.

Variable P : provider.
Variable Q : request -> Prop.

(** A property of all the calls of the parts is a property of all the calls
    of the whole. *)
Lemma calls_bind_Forall (A B : Type) (m : prog A) (f : A -> prog B)
  (w : world P) :
  Forall Q (requests (calls_of (run P m w))) ->
  (forall a w', Forall Q (requests (calls_of (run P (f a) w')))) ->
  Forall Q (requests (calls_of (run P (bind m f) w))).
Proof.
  intros Hm Hf. rewrite calls_of_run_bind.
  destruct (outcome_of (run P m w)) as [a | e]; [| exact Hm].
  unfold requests in *. rewrite map_app. apply Forall_app. split; [exact Hm |].
  apply Hf.
Qed.

Lemma calls_pure_Forall (A : Type) (p : prog A) (w : world P) :
  pure p -> Forall Q (requests (calls_of (run P p w))).
Proof. intros Hp. rewrite (run_pure P p w Hp). constructor. Qed.

Lemma calls_for_each_Forall (S : Type) (body : S -> pyval -> prog S) :
  (forall acc x w, Forall Q (requests (calls_of (run P (body acc x) w)))) ->
  forall xs acc w,
    Forall Q (requests (calls_of (run P (for_each xs body acc) w))).
Proof.
  intros Hb. induction xs as [| x xs IH]; intros acc w.
  - constructor.
  - cbn [for_each]. apply calls_bind_Forall; auto.
Qed.

Lemma calls_py_map_Forall (f : pyval -> prog pyval) :
  (forall x w, Forall Q (requests (calls_of (run P (f x) w)))) ->
  forall xs w, Forall Q (requests (calls_of (run P (py_map f xs) w))).
Proof.
  intros Hf. induction xs as [| x xs IH]; intros w.
  - constructor.
  - cbn [py_map]. apply calls_bind_Forall; [apply Hf |].
    intros y w'. apply calls_bind_Forall; [apply IH |].
    intros ys w''. constructor.
Qed.

End Calls.

Lemma get_listeners_listener_requests (P : provider) (w : world P)
  (lb_arn : pyval) :
  Forall (fun r => is_listener_request r = true)
         (requests (calls_of (run P (_get_listeners lb_arn) w))).
Proof.
  unfold _get_listeners. apply calls_bind_Forall.
  - rewrite run_guarded_call_surfaced. repeat constructor.
  - intros listeners w'. apply calls_bind_Forall.
    + apply calls_pure_Forall, pure_collect_listener_arns.
    + intros arns w''. unfold fetch_listeners. apply calls_bind_Forall.
      * apply calls_for_each_Forall. intros acc arn u.
        rewrite run_fetch_listener. repeat constructor.
      * intros vars u. constructor.
Qed.

Lemma get_elb_info_listener_requests (P : provider) (w : world P)
  (elb : pyval) :
  Forall (fun r => is_listener_request r = true)
         (requests (calls_of (run P (_get_elb_info elb) w))).
Proof.
  unfold _get_elb_info.
  apply calls_bind_Forall;
    [apply calls_pure_Forall, pure_item | intros arn w1].
  apply calls_bind_Forall;
    [apply calls_pure_Forall, pure_bind;
     [apply pure_item | intros azs; apply pure_get_zone_info]
    | intros zones w2].
  apply calls_bind_Forall;
    [apply calls_pure_Forall, pure_item | intros name w3].
  apply calls_bind_Forall;
    [apply calls_pure_Forall, pure_item | intros dns w4].
  apply calls_bind_Forall;
    [apply calls_pure_Forall, pure_item | intros sgs w5].
  apply calls_bind_Forall;
    [apply calls_pure_Forall, pure_bind;
     [apply pure_item | intros st; apply pure_item]
    | intros state w6].
  apply calls_bind_Forall; [| intros ls w7; constructor].
  apply calls_bind_Forall;
    [apply calls_pure_Forall, pure_item | intros arn' w8].
  apply get_listeners_listener_requests.
Qed.

Lemma pure_select_named (names : list string) (all_elbs : pyval) :
  pure (select_named names all_elbs).
Proof.
  unfold select_named.
  apply pure_bind; [apply pure_item | intros lbs].
  apply pure_bind; [apply pure_py_iter | intros xs].
  apply pure_for_each. intros acc x.
  apply pure_bind; [apply pure_item | intros n].
  destruct (py_in n names); exact I.
Qed.

(** X17.  [list_elbs] only reads: against any provider, with any filter and
    whatever the responses are, its first call is the one
    [describe_load_balancers] call, and every call after it is a
    [describe_listeners] call.  It lists once and constructs no client. *)
Theorem list_elbs_calls :
  forall (P : provider) (w : world P) (names : list string),
    exists rest : trace,
      calls_of (run P (list_elbs names) w)
      = (DescribeLoadBalancers, fst (serve P w DescribeLoadBalancers)) :: rest
      /\ Forall (fun r => is_listener_request r = true) (requests rest).
Proof.
  intros P w names. unfold list_elbs.
  rewrite calls_of_run_bind, run_guarded_call_surfaced.
  cbn [outcome_of calls_of world_of fst snd].
  destruct (fst (serve P w DescribeLoadBalancers)) as [all_elbs | e].
  - eexists. split; [reflexivity |].
    apply calls_bind_Forall.
    + apply calls_pure_Forall.
      destruct (truthy all_elbs); [| exact I].
      destruct names as [| n names]; [exact I |].
      apply pure_bind; [apply pure_select_named | intros arr; exact I].
    + intros elb_array w'. apply calls_bind_Forall.
      * apply calls_pure_Forall, pure_py_iter.
      * intros xs w''. apply calls_bind_Forall.
        -- apply calls_py_map_Forall. intros x u.
           apply get_elb_info_listener_requests.
        -- intros infos u. constructor.
  - exists []. split; [reflexivity | constructor].
Qed.
